(** * Xero parts price updater: a shallow embedding of [xero_price_updater.py]

    The development follows the source file top-down:

    - [PyStr]   : the [str] methods the scraper relies on ([strip], [rstrip],
                  [upper], [replace], [rsplit], [startswith], [in]) and the one
                  regular expression it searches for;
    - [PyFloat] : binary64 floats as [spec_float] and the builtin [float(s)];
    - [PartsPriceScraper] : the class of the same name, over an arbitrary
                  Selenium driver;
    - the batch loop [process_xero_export];
    - [Demo]    : a small in-memory browser used to run the code on concrete
                  pages.

    Strings are modelled on the 8-bit characters of [Ascii]; only code points
    below 128 are given their Python meaning (a character above 127 is neither
    whitespace, nor a digit, nor changed by [upper]).  Calls to [logger] have
    no effect on any result and are left out. *)

From Stdlib Require Import String Ascii List ZArith Bool Lia SpecFloat DecimalString.
Import ListNotations.
Local Open Scope string_scope.
Local Open Scope list_scope.

(* ================================================================= *)
(** * Python strings *)

Module PyStr.

(** [str.isspace] on one character, ASCII range: TAB, LF, VT, FF, CR, the
    four separators FS, GS, RS, US and the space. *)
Definition isspace (c : ascii) : bool :=
  let n := nat_of_ascii c in
  ((9 <=? n) && (n <=? 13) || (28 <=? n) && (n <=? 32))%nat.

Definition isdigit (c : ascii) : bool :=
  let n := nat_of_ascii c in ((48 <=? n) && (n <=? 57))%nat.

(** [s.lstrip(chars)] and [s.rstrip(chars)], the set [chars] given as a
    predicate. *)
Fixpoint lstrip_by (p : ascii -> bool) (s : string) : string :=
  match s with
  | EmptyString => EmptyString
  | String c rest => if p c then lstrip_by p rest else s
  end.

Fixpoint rstrip_by (p : ascii -> bool) (s : string) : string :=
  match s with
  | EmptyString => EmptyString
  | String c rest =>
      match rstrip_by p rest with
      | EmptyString => if p c then EmptyString else String c EmptyString
      | kept => String c kept
      end
  end.

(** [s.strip()] *)
Definition strip (s : string) : string :=
  rstrip_by isspace (lstrip_by isspace s).

(** [s.rstrip('/')] *)
Definition rstrip_slash (s : string) : string :=
  rstrip_by (Ascii.eqb "/") s.

(** [s.upper()] *)
Definition upper_char (c : ascii) : ascii :=
  let n := nat_of_ascii c in
  if ((97 <=? n) && (n <=? 122))%nat then ascii_of_nat (n - 32) else c.

Fixpoint upper (s : string) : string :=
  match s with
  | EmptyString => EmptyString
  | String c rest => String (upper_char c) (upper rest)
  end.

(** [s.replace(c, '')] for a one-character [c]. *)
Fixpoint remove_char (c : ascii) (s : string) : string :=
  match s with
  | EmptyString => EmptyString
  | String d rest =>
      if Ascii.eqb d c then remove_char c rest else String d (remove_char c rest)
  end.

(** [s.rsplit(sep, 1)] for a one-character [sep]: one part when [sep] does
    not occur, otherwise the text before and after its last occurrence. *)
Fixpoint rsplit_last (sep : ascii) (s : string) : option (string * string) :=
  match s with
  | EmptyString => None
  | String c rest =>
      match rsplit_last sep rest with
      | Some (before, after) => Some (String c before, after)
      | None => if Ascii.eqb c sep then Some (EmptyString, rest) else None
      end
  end.

Definition rsplit1 (sep : ascii) (s : string) : list string :=
  match rsplit_last sep s with
  | Some (before, after) => [before; after]
  | None => [s]
  end.

(** [s.startswith(p)] *)
Definition startswith (s p : string) : bool := prefix p s.

(** [needle in hay] *)
Fixpoint contains (needle hay : string) : bool :=
  prefix needle hay ||
  match hay with
  | EmptyString => false
  | String _ rest => contains needle rest
  end.

(** Whether some character of [s] satisfies [p]. *)
Fixpoint any_char (p : ascii -> bool) (s : string) : bool :=
  match s with
  | EmptyString => false
  | String c rest => p c || any_char p rest
  end.

Definition is_space_char (c : ascii) : bool := Ascii.eqb c " ".

(** Truth value of a string: [if s:] *)
Definition nonempty (s : string) : bool :=
  match s with EmptyString => false | _ => true end.

(** ** [re.search(r'[\d,]+\.?\d*', s)]

    The leftmost match starts at the first digit or comma; each of the
    three pieces is greedy and the last two may be empty, so no
    backtracking ever happens. *)
Definition digit_or_comma (c : ascii) : bool := isdigit c || Ascii.eqb c ",".

Fixpoint take_while (p : ascii -> bool) (s : string) : string :=
  match s with
  | EmptyString => EmptyString
  | String c rest => if p c then String c (take_while p rest) else EmptyString
  end.

Fixpoint drop_while (p : ascii -> bool) (s : string) : string :=
  match s with
  | EmptyString => EmptyString
  | String c rest => if p c then drop_while p rest else s
  end.

Definition match_price_here (s : string) : string :=
  let head := take_while digit_or_comma s in
  match drop_while digit_or_comma s with
  | String "." rest => head ++ "." ++ take_while isdigit rest
  | _ => head
  end.

Fixpoint search_price (s : string) : option string :=
  match s with
  | EmptyString => None
  | String c rest =>
      if digit_or_comma c then Some (match_price_here s) else search_price rest
  end.

End PyStr.

Import PyStr.

(* ================================================================= *)
(** * The pure methods of [PartsPriceScraper] *)

(** [extract_sku_from_name]: returns [(description, sku)]. *)
Definition extract_sku_from_name (item_name : string) : string * string :=
  match rsplit1 " " item_name with
  | [description; sku] =>
      let sku := rstrip_slash (strip sku) in
      (strip description, sku)
  | _ => (item_name, "")
  end.

(** [determine_website] *)
Definition determine_website (sku : string) : string :=
  if startswith sku "J" then "justkampers" else "heritage".

(** ** The extractor in the words of the specification

    Section 4.1 and the testable properties describe the identifier as the
    substring after the last whitespace, trimmed, with a single trailing
    slash removed.  These definitions follow that wording; they are compared
    with [extract_sku_from_name] below. *)
Fixpoint spec_after_last_whitespace (s : string) : option string :=
  match s with
  | EmptyString => None
  | String c rest =>
      match spec_after_last_whitespace rest with
      | Some after => Some after
      | None => if isspace c then Some rest else None
      end
  end.

Fixpoint spec_strip_one_slash (s : string) : string :=
  match s with
  | EmptyString => EmptyString
  | String c EmptyString => if Ascii.eqb c "/" then EmptyString else s
  | String c rest => String c (spec_strip_one_slash rest)
  end.

Definition spec_identifier (item_name : string) : string :=
  match spec_after_last_whitespace item_name with
  | Some after => spec_strip_one_slash (strip after)
  | None => EmptyString
  end.


(* ================================================================= *)
(** * Exceptions *)

(** The exceptions that can reach the code under study.  Every one of them
    is a subclass of Python's [Exception]; [OtherException] stands for any
    further subclass a driver call may raise (stale element, session lost,
    ...).  [KeyboardInterrupt] and [SystemExit] are not [Exception]s and are
    outside the model. *)
Inductive exn : Type :=
| NoSuchElementException
| TimeoutException
| ValueError
| ZeroDivisionError
| IndexError
| OtherException (name : string).

Inductive result (A : Type) : Type :=
| Ok (a : A)
| Raise (e : exn).
Arguments Ok {A} a.
Arguments Raise {A} e.

Definition is_NoSuchElement (e : exn) : bool :=
  match e with NoSuchElementException => true | _ => false end.

Definition is_Timeout (e : exn) : bool :=
  match e with TimeoutException => true | _ => false end.

(* ================================================================= *)
(** * Python floats *)

Module PyFloat.

(** A Python [float] is an IEEE 754 binary64 number. *)
Definition prec : Z := 53.
Definition emax : Z := 1024.
Definition float : Type := spec_float.

Definition zero : float := S754_zero false.
Definition sub : float -> float -> float := SFsub prec emax.
Definition mul : float -> float -> float := SFmul prec emax.
Definition fabs : float -> float := SFabs.
(** [x > y] *)
Definition gt (x y : float) : bool := SFltb y x.
Definition feq (x y : float) : bool := SFeqb x y.

(** [x / y]: Python raises on a zero divisor instead of returning an
    infinity or a NaN. *)
Definition div (x y : float) : result float :=
  if feq y zero then Raise ZeroDivisionError else Ok (SFdiv prec emax x y).

(** The float nearest to [num / den] (ties to even), for [0 <= num] and
    [0 < den]. *)
Definition of_ratio (neg : bool) (num den : Z) : float :=
  if (num =? 0)%Z then S754_zero neg
  else
    let '(q, e, l) := SFdiv_core_binary prec emax num 0 den 0 in
    binary_round_aux prec emax neg q e l.

(** The float nearest to [m * 10 ^ e], for [0 <= m]. *)
Definition of_decimal (neg : bool) (m e : Z) : float :=
  if (0 <=? e)%Z then of_ratio neg (m * 10 ^ e) 1
  else of_ratio neg m (10 ^ (- e)).

(** [float(n)] for an [int] *)
Definition of_int (n : Z) : float := of_decimal (n <? 0)%Z (Z.abs n) 0.

(** ** [float(s)] for a [str] *)

Definition digit_val (c : ascii) : Z := Z.of_nat (nat_of_ascii c - 48).

Fixpoint digits_val (acc : Z) (s : string) : Z :=
  match s with
  | EmptyString => acc
  | String c rest => digits_val (10 * acc + digit_val c) rest
  end.

(** Underscores may only stand between two digits; they are dropped.
    [prev] is the character before [s] ([None] at the start). *)
Fixpoint drop_underscores (prev : option ascii) (s : string) : option string :=
  match s with
  | EmptyString =>
      match prev with
      | Some "_"%char => None
      | _ => Some EmptyString
      end
  | String c rest =>
      if Ascii.eqb c "_" then
        match prev with
        | Some p => if isdigit p then drop_underscores (Some c) rest else None
        | None => None
        end
      else
        match prev with
        | Some "_"%char =>
            if isdigit c then option_map (String c) (drop_underscores (Some c) rest)
            else None
        | _ => option_map (String c) (drop_underscores (Some c) rest)
        end
  end.

Definition lower_char (c : ascii) : ascii :=
  let n := nat_of_ascii c in
  if ((65 <=? n) && (n <=? 90))%nat then ascii_of_nat (n + 32) else c.

Fixpoint lower (s : string) : string :=
  match s with
  | EmptyString => EmptyString
  | String c rest => String (lower_char c) (lower rest)
  end.

(** An optional sign: [(negative, rest)]. *)
Definition read_sign (s : string) : bool * string :=
  match s with
  | String "-" rest => (true, rest)
  | String "+" rest => (false, rest)
  | _ => (false, s)
  end.

(** The exponent part: [Some e] when [s] is empty ([e = 0]) or is
    [e], [E] followed by an optional sign and at least one digit, and
    nothing else. *)
Definition read_exponent (s : string) : option Z :=
  match s with
  | EmptyString => Some 0%Z
  | String c rest =>
      if Ascii.eqb (lower_char c) "e" then
        let '(eneg, ds) := read_sign rest in
        if nonempty ds && negb (nonempty (drop_while isdigit ds)) then
          Some (if eneg then (- digits_val 0 ds)%Z else digits_val 0 ds)
        else None
      else None
  end.

Definition parse_decimal (neg : bool) (s : string) : option float :=
  let ip := take_while isdigit s in
  let r1 := drop_while isdigit s in
  let '(fp, r2) :=
    match r1 with
    | String "." t => (take_while isdigit t, drop_while isdigit t)
    | _ => (EmptyString, r1)
    end in
  if nonempty ip || nonempty fp then
    match read_exponent r2 with
    | Some e =>
        Some (of_decimal neg (digits_val 0 (ip ++ fp))
                (e - Z.of_nat (String.length fp)))
    | None => None
    end
  else None.

Definition parse_inf_nan (neg : bool) (s : string) : option float :=
  let l := lower s in
  if String.eqb l "inf" || String.eqb l "infinity" then Some (S754_infinity neg)
  else if String.eqb l "nan" then Some S754_nan
  else None.

Definition of_string (s : string) : result float :=
  match drop_underscores None (strip s) with
  | None => Raise ValueError
  | Some t =>
      let '(neg, body) := read_sign t in
      match parse_decimal neg body with
      | Some x => Ok x
      | None =>
          match parse_inf_nan neg body with
          | Some x => Ok x
          | None => Raise ValueError
          end
      end
  end.

(** The literals of the source. *)
Definition lit_0_01 : float := of_decimal false 1 (-2).
Definition lit_100 : float := of_int 100.

End PyFloat.

Import PyFloat.

(* ================================================================= *)
(** * The Selenium driver and the scraper's monad *)

(** Locator strategies ([selenium.webdriver.common.by.By]). *)
Inductive By : Type := CSS_SELECTOR | XPATH | ID | CLASS_NAME.

(** What the code asks of Selenium and of the clock.  [W] is the state of
    the outside world (browser process, network, the two web sites), [E]
    the type of [WebElement] handles.  Every call may change the world and
    may raise; nothing is assumed about what it answers.  A search below an
    element passes [Some element], a search in the whole page passes
    [None]. *)
Record Driver (W E : Type) : Type := {
  launch : W -> result unit * W;
  configure : W -> result unit * W;
  quit : W -> result unit * W;
  get : string -> W -> result unit * W;
  sleep : nat -> W -> W;
  wait_clickable : nat -> By -> string -> W -> result E * W;
  wait_present : nat -> By -> string -> W -> result E * W;
  find_element : option E -> By -> string -> W -> result E * W;
  find_elements : option E -> By -> string -> W -> result (list E) * W;
  text : E -> W -> result string * W;
  get_attribute : E -> string -> W -> result (option string) * W;
  click : E -> W -> result unit * W
}.
Arguments launch {W E}.
Arguments configure {W E}.
Arguments quit {W E}.
Arguments get {W E}.
Arguments sleep {W E}.
Arguments wait_clickable {W E}.
Arguments wait_present {W E}.
Arguments find_element {W E}.
Arguments find_elements {W E}.
Arguments text {W E}.
Arguments get_attribute {W E}.
Arguments click {W E}.

(** The state of a [PartsPriceScraper] object together with the world:
    [driver] tells whether [self.driver] is set. *)
Record scraper (W : Type) : Type := { driver : bool; world : W }.
Arguments driver {W}.
Arguments world {W}.
Arguments Build_scraper {W}.

(** Computations that read and change the scraper and may raise. *)
Definition M (W A : Type) : Type := scraper W -> result A * scraper W.

Definition ret {W A} (a : A) : M W A := fun s => (Ok a, s).

Definition raise {W A} (e : exn) : M W A := fun s => (Raise e, s).

Definition bind {W A B} (m : M W A) (k : A -> M W B) : M W B :=
  fun s =>
    match m s with
    | (Ok a, s') => k a s'
    | (Raise e, s') => (Raise e, s')
    end.

(** [try: m  except <those e with catches e>: h] *)
Definition try_except {W A} (m : M W A) (catches : exn -> bool) (h : M W A) : M W A :=
  fun s =>
    match m s with
    | (Ok a, s') => (Ok a, s')
    | (Raise e, s') => if catches e then h s' else (Raise e, s')
    end.

(** [except Exception:] and the bare [except:] catch every [exn]. *)
Definition any_exception (e : exn) : bool := true.

(** [try: m  finally: f] *)
Definition try_finally {W A} (m : M W A) (f : M W unit) : M W A :=
  fun s =>
    match m s with
    | (r, s') =>
        match f s' with
        | (Ok _, s'') => (r, s'')
        | (Raise e, s'') => (Raise e, s'')
        end
    end.

(** A pure computation that may raise. *)
Definition lift {W A} (r : result A) : M W A := fun s => (r, s).

(** A driver call: it works on the world and leaves [self.driver] alone. *)
Definition call {W A} (f : W -> result A * W) : M W A :=
  fun s => match f (world s) with (r, w) => (r, Build_scraper (driver s) w) end.

Declare Scope py_scope.
Delimit Scope py_scope with py.
Notation "x <- m ;; k" := (bind m (fun x => k))
  (at level 61, m at next level, right associativity) : py_scope.
Notation "m ;; k" := (bind m (fun _ => k))
  (at level 61, right associativity) : py_scope.
Local Open Scope py_scope.

(** Truth value of an attribute: [None] and [''] are false. *)
Definition truthy (a : option string) : bool :=
  match a with Some s => nonempty s | None => false end.

(** [str(a)] for an attribute value. *)
Definition str_of_attr (a : option string) : string :=
  match a with Some s => s | None => "None" end.

(* ================================================================= *)
(** * [class PartsPriceScraper] *)

Section PartsPriceScraper.

Context {W E : Type}.
Variable drv : Driver W E.

Local Abbreviation M := (M W).

(** [start_driver]: unless [self.driver] is already set, launches Chrome
    ([launch]: installing the driver and creating the session), sets
    [self.driver] and then the two timeouts ([configure]). *)
Definition start_driver : M unit :=
  fun s =>
    if driver s then (Ok tt, s)
    else
      match launch drv (world s) with
      | (Ok _, w) =>
          match configure drv w with
          | (r, w') => (r, Build_scraper true w')
          end
      | (Raise e, w) => (Raise e, Build_scraper false w)
      end.

(** [close_driver] *)
Definition close_driver : M unit :=
  fun s =>
    if driver s then
      match quit drv (world s) with
      | (Ok _, w) => (Ok tt, Build_scraper false w)
      | (Raise e, w) => (Raise e, Build_scraper true w)
      end
    else (Ok tt, s).

(** [time.sleep(n)]: the world goes on for [n] seconds. *)
Definition slept (n : nat) (s : scraper W) : scraper W :=
  Build_scraper (driver s) (sleep drv n (world s)).

Definition time_sleep (n : nat) : M unit :=
  fun s => (Ok tt, slept n s).

(** ** [search_justkampers] *)

Definition jk_price_selectors : list string :=
  [ "span.price";
    "span[data-price-type='finalPrice']";
    "div.price-box span.price";
    "span.price-wrapper span.price" ].

Definition jk_cookie_xpath : string :=
  "//button[contains(text(), 'Accept') or contains(text(), 'ACCEPT') or contains(text(), 'accept') or contains(@class, 'accept') or contains(@id, 'accept')]".

(** The test that decides whether a listed product is the one searched
    for: [product_sku.upper() == search_sku_normalized]. *)
Definition jk_sku_matches (product_sku search_sku_normalized : string) : bool :=
  String.eqb (upper product_sku) search_sku_normalized.

(** [for label in sku_labels]: the first label whose stripped text is not
    empty, [""] when there is none. *)
Fixpoint jk_product_sku (sku_labels : list E) : M string :=
  match sku_labels with
  | [] => ret ""
  | label :: rest =>
      t <- call (text drv label) ;;
      let label_text := strip t in
      if nonempty label_text then ret label_text else jk_product_sku rest
  end.

(** One turn of the first [for selector in price_selectors] loop, without
    its [except]: [Some price] stands for [return price]. *)
Definition jk_listing_price (product : E) (selector : string) : M (option float) :=
  price_element <- call (find_element drv (Some product) CSS_SELECTOR selector) ;;
  price_amount <- call (get_attribute drv price_element "data-price-amount") ;;
  if truthy price_amount then
    price <- lift (of_string (str_of_attr price_amount)) ;;
    ret (Some price)
  else
    price_text <- call (text drv price_element) ;;
    if nonempty price_text then
      match search_price price_text with
      | Some price_match =>
          price <- lift (of_string (remove_char "," price_match)) ;;
          ret (Some price)
      | None => ret None
      end
    else ret None.

Fixpoint jk_listing_prices (product : E) (selectors : list string) : M (option float) :=
  match selectors with
  | [] => ret None
  | selector :: rest =>
      r <- try_except (jk_listing_price product selector) is_NoSuchElement (ret None) ;;
      match r with
      | Some price => ret (Some price)
      | None => jk_listing_prices product rest
      end
  end.

(** One turn of the loop over the product page. *)
Definition page_price (selector : string) : M (option float) :=
  price_element <- call (find_element drv None CSS_SELECTOR selector) ;;
  price_text <- call (text drv price_element) ;;
  match search_price price_text with
  | Some price_match =>
      price <- lift (of_string (remove_char "," price_match)) ;;
      ret (Some price)
  | None => ret None
  end.

Fixpoint page_prices (selectors : list string) : M (option float) :=
  match selectors with
  | [] => ret None
  | selector :: rest =>
      r <- try_except (page_price selector) is_NoSuchElement (ret None) ;;
      match r with
      | Some price => ret (Some price)
      | None => page_prices rest
      end
  end.

(** The click through to the product page, inside its [try: ... except:
    pass]. *)
Definition jk_product_page (product : E) : M (option float) :=
  try_except
    (product_link <- call (find_element drv (Some product) CSS_SELECTOR
                             "a.product-item-photo, a.product-item-link") ;;
     call (click drv product_link) ;;
     time_sleep 2 ;;
     page_prices jk_price_selectors)
    any_exception
    (ret None).

(** What is run once a product matched: the function returns its value. *)
Definition jk_extract_price (product : E) : M (option float) :=
  r <- jk_listing_prices product jk_price_selectors ;;
  match r with
  | Some price => ret (Some price)
  | None => jk_product_page product
  end.

(** The body of [for product in products], without its [except]:
    [Some r] stands for [return r], [None] for falling through to the next
    product. *)
(** The SKU the listing shows for a product. *)
Definition jk_displayed_sku (product : E) : M string :=
  sku_labels <- call (find_elements drv (Some product) CSS_SELECTOR "div.amlabel-text") ;;
  jk_product_sku sku_labels.

Definition jk_check_product (search_sku_normalized : string) (product : E)
  : M (option (option float)) :=
  product_sku <- jk_displayed_sku product ;;
  if jk_sku_matches product_sku search_sku_normalized then
    r <- jk_extract_price product ;;
    ret (Some r)
  else ret None.

Fixpoint jk_products (search_sku_normalized : string) (products : list E)
  : M (option float) :=
  match products with
  | [] => ret None
  | product :: rest =>
      r <- try_except (jk_check_product search_sku_normalized product)
             any_exception (ret None) ;;
      match r with
      | Some r => ret r
      | None => jk_products search_sku_normalized rest
      end
  end.

(** The first half of the body: start the driver, load the result page,
    dismiss the cookie banner and list the products. *)
Definition jk_results_page (search_sku : string) : M (list E) :=
  start_driver ;;
  let search_url :=
    ("https://www.justkampers.com/catalogsearch/result/?q=" ++ search_sku)%string in
  call (get drv search_url) ;;
  time_sleep 2 ;;
  try_except
    (cookie_button <- call (wait_clickable drv 3 XPATH jk_cookie_xpath) ;;
     call (click drv cookie_button) ;;
     time_sleep 1)
    any_exception
    (ret tt) ;;
  time_sleep 3 ;;
  call (find_elements drv None CSS_SELECTOR "div.product-item").

(** The body of the outermost [try]. *)
Definition search_justkampers_body (sku : string) : M (option float) :=
  let search_sku := strip sku in
  let search_sku_normalized := upper search_sku in
  products <- jk_results_page search_sku ;;
  match products with
  | [] => ret None
  | _ => jk_products search_sku_normalized products
  end.

Definition search_justkampers (sku : string) : M (option float) :=
  try_except (search_justkampers_body sku) any_exception (ret None).

(** ** [search_heritage] *)

Definition heritage_sku_selectors : list string :=
  [ "div.product__sku mark";
    "div.product-item-sku";
    "span.sku";
    "div.sku";
    "span[itemprop='sku']" ].

Definition heritage_price_selectors : list string :=
  [ "span.price-wrapper[data-price-including-tax] span.price";
    "span[itemprop='lowPrice']";
    "span.price:not(:empty)";
    "span[data-price-type='finalPrice'] span.price";
    "div.price-box span[data-price-amount]";
    "span.price-wrapper span.price";
    "div.price-final_price span.price";
    "span.regular-price span.price" ].

(** [s.replace(' ', '').replace('/', '').upper()] *)
Definition heritage_normalize (s : string) : string :=
  upper (remove_char "/" (remove_char " " s)).

(** [product_sku_normalized == search_normalized] *)
Definition heritage_sku_matches (product_sku search_sku_normalized : string) : bool :=
  String.eqb (heritage_normalize product_sku) search_sku_normalized.

(** [for selector in sku_selectors]; [sku_text] is the variable of that
    name, assigned at each turn that reads a text and kept by a turn that
    raises. *)
Fixpoint heritage_sku_text (product : E) (selectors : list string) (sku_text : string)
  : M string :=
  match selectors with
  | [] => ret sku_text
  | selector :: rest =>
      r <- try_except
             (sku_element <- call (find_element drv (Some product) CSS_SELECTOR selector) ;;
              t <- call (text drv sku_element) ;;
              ret (Some (strip t)))
             any_exception
             (ret None) ;;
      match r with
      | Some t => if nonempty t then ret t else heritage_sku_text product rest t
      | None => heritage_sku_text product rest sku_text
      end
  end.

(** [if not sku_text:] look for the searched SKU in the product title. *)
Definition heritage_title_fallback (product : E) (search_sku sku_text : string) : M string :=
  if nonempty sku_text then ret sku_text
  else
    try_except
      (title_element <- call (find_element drv (Some product) CSS_SELECTOR
                                "a.product-item-link, h2.product-name") ;;
       title <- call (text drv title_element) ;;
       if contains search_sku title then ret search_sku else ret sku_text)
      any_exception
      (ret sku_text).

(** The SKU the listing shows for a product. *)
Definition heritage_product_sku (product : E) (search_sku : string) : M string :=
  sku_text <- heritage_sku_text product heritage_sku_selectors "" ;;
  heritage_title_fallback product search_sku sku_text.

(** One turn of the first price loop, without its [except]. *)
Definition heritage_listing_price (product : E) (selector : string) : M (option float) :=
  price_element <- call (find_element drv (Some product) CSS_SELECTOR selector) ;;
  t <- call (text drv price_element) ;;
  price_text <-
    (if nonempty t then ret (Some t)
     else
       parent <- call (find_element drv (Some price_element) XPATH "..") ;;
       a <- call (get_attribute drv parent "data-price-including-tax") ;;
       a <- (if truthy a then ret a
             else call (get_attribute drv price_element "data-price-amount")) ;;
       a <- (if truthy a then ret a
             else call (get_attribute drv price_element "content")) ;;
       if truthy a then ret a
       else call (get_attribute drv price_element "innerText")) ;;
  if truthy price_text then
    match search_price (str_of_attr price_text) with
    | Some price_match =>
        price <- lift (of_string (remove_char "," price_match)) ;;
        if gt price zero then ret (Some price) else ret None
    | None => ret None
    end
  else ret None.

Fixpoint heritage_listing_prices (product : E) (selectors : list string)
  : M (option float) :=
  match selectors with
  | [] => ret None
  | selector :: rest =>
      r <- try_except (heritage_listing_price product selector) any_exception (ret None) ;;
      match r with
      | Some price => ret (Some price)
      | None => heritage_listing_prices product rest
      end
  end.

(** What is run once a product matched.  [Some price] stands for
    [return price]; on [None] the body of the loop over products ends and
    the next product is examined. *)
Definition heritage_extract_price (product : E) : M (option float) :=
  r <- heritage_listing_prices product heritage_price_selectors ;;
  match r with
  | Some price => ret (Some price)
  | None =>
      product_link <- call (find_element drv (Some product) CSS_SELECTOR
                              "a.product-item-link") ;;
      call (click drv product_link) ;;
      time_sleep 2 ;;
      page_prices heritage_price_selectors
  end.

Definition heritage_check_product (search_sku search_sku_normalized : string) (product : E)
  : M (option float) :=
  product_sku <- heritage_product_sku product search_sku ;;
  if heritage_sku_matches product_sku search_sku_normalized then
    heritage_extract_price product
  else ret None.

Fixpoint heritage_products (search_sku search_sku_normalized : string) (products : list E)
  : M (option float) :=
  match products with
  | [] => ret None
  | product :: rest =>
      r <- try_except (heritage_check_product search_sku search_sku_normalized product)
             any_exception (ret None) ;;
      match r with
      | Some price => ret (Some price)
      | None => heritage_products search_sku search_sku_normalized rest
      end
  end.

Definition is_nil {A} (l : list A) : bool :=
  match l with [] => true | _ => false end.

(** The first half of the body: start the driver, load the result page,
    dismiss the cookie banner, wait for the grid and list the products;
    [None] when the grid does not show up in time. *)
Definition heritage_results_page (search_sku : string) : M (option (list E)) :=
  start_driver ;;
  let search_url :=
    ("https://www.heritagepartscentre.com/uk/catalogsearch/result/?q=" ++ search_sku)%string in
  call (get drv search_url) ;;
  time_sleep 3 ;;
  try_except
    (cookie_button <- call (wait_clickable drv 3 ID
                              "CybotCookiebotDialogBodyLevelButtonAccept") ;;
     call (click drv cookie_button) ;;
     time_sleep 1)
    any_exception
    (try_except
       (cookie_button <- call (find_element drv None XPATH
                                 "//button[contains(text(), 'OK') or contains(text(), 'Accept')]") ;;
        call (click drv cookie_button) ;;
        time_sleep 1)
       any_exception
       (ret tt)) ;;
  found <- try_except
             (call (wait_present drv 10 CLASS_NAME "products-grid") ;; ret true)
             is_Timeout
             (ret false) ;;
  if found then
    time_sleep 2 ;;
    products <- call (find_elements drv None CSS_SELECTOR "div.product-item-info") ;;
    products <-
      (if is_nil products then
         products <- call (find_elements drv None CSS_SELECTOR "li.product-item") ;;
         if is_nil products then
           call (find_elements drv None CSS_SELECTOR "article.product-item-info")
         else ret products
       else ret products) ;;
    ret (Some products)
  else ret None.

(** The body of the outermost [try]. *)
Definition search_heritage_body (sku : string) : M (option float) :=
  let search_sku := rstrip_slash (strip sku) in
  let search_sku_normalized := heritage_normalize search_sku in
  page <- heritage_results_page search_sku ;;
  match page with
  | Some products => heritage_products search_sku search_sku_normalized products
  | None => ret None
  end.

Definition search_heritage (sku : string) : M (option float) :=
  try_except (search_heritage_body sku) any_exception (ret None).

(** ** [get_price]: returns [(price, source_website)]. *)
Definition get_price (item_name : string) : M (option float * string) :=
  let '(description, sku) := extract_sku_from_name item_name in
  if negb (nonempty sku) then ret (None, "unknown")
  else
    let website := determine_website sku in
    if String.eqb website "justkampers" then
      price <- search_justkampers sku ;;
      ret (price, "JustKampers")
    else
      price <- search_heritage sku ;;
      ret (price, "Heritage Parts Centre").

End PartsPriceScraper.

Arguments jk_price_selectors : clear implicits.
Arguments heritage_price_selectors : clear implicits.
Arguments heritage_sku_selectors : clear implicits.

(* ================================================================= *)
(** * [process_xero_export] *)

(** A row of the export as [csv.DictReader] hands it over: a [dict] from
    column names to cell texts, in column order.  The table is taken to be
    rectangular, so that every cell is a text (no [None] for a short row,
    no list under the key [None] for a long one). *)
Definition row : Type := list (string * string).

(** [d.get(k)] *)
Fixpoint dict_get (d : row) (k : string) : option string :=
  match d with
  | [] => None
  | (k', v) :: rest => if String.eqb k' k then Some v else dict_get rest k
  end.

(** [d[k] = v]: an existing key keeps its place, a new one goes last. *)
Fixpoint dict_set (d : row) (k v : string) : row :=
  match d with
  | [] => [(k, v)]
  | (k', v') :: rest =>
      if String.eqb k' k then (k', v) :: rest else (k', v') :: dict_set rest k v
  end.

(** [list(d.keys())] *)
Definition keys (d : row) : list string := map fst d.

(** The three kinds of report entries (the dicts appended to [updates],
    [unchanged] and [errors]). *)
Record update_entry : Type := {
  upd_ItemCode : string;
  upd_ItemName : string;
  upd_OldPrice : float;
  upd_NewPrice : float;
  upd_Difference : float;
  upd_DifferencePercent : float;
  upd_Source : string
}.

Record unchanged_entry : Type := {
  unc_ItemCode : string;
  unc_ItemName : string;
  unc_Price : float;
  unc_Source : string
}.

Record error_entry : Type := {
  err_ItemCode : string;
  err_ItemName : string;
  err_CurrentPrice : float;
  err_Error : string
}.

Record report : Type := {
  updates : list update_entry;
  errors : list error_entry;
  unchanged : list unchanged_entry
}.

(** [updates.append(u)], [errors.append(e)], [unchanged.append(u)] *)
Definition add_update (rep : report) (u : update_entry) : report :=
  {| updates := updates rep ++ [u]; errors := errors rep; unchanged := unchanged rep |}.

Definition add_error (rep : report) (e : error_entry) : report :=
  {| updates := updates rep; errors := errors rep ++ [e]; unchanged := unchanged rep |}.

Definition add_unchanged (rep : report) (u : unchanged_entry) : report :=
  {| updates := updates rep; errors := errors rep; unchanged := unchanged rep ++ [u] |}.

(** The number of entries of a report. *)
Definition entries (rep : report) : nat :=
  length (updates rep) + length (errors rep) + length (unchanged rep).

(** The outcome of comparing the current price with the looked-up one. *)
Inductive outcome : Type :=
| Updated (new_price price_diff price_diff_pct : float)
| Unchanged
| Error.

(** The comparison step of the loop body, [new_price] being what
    [get_price] returned.  The [else 0] of the percentage is the integer
    [0]; it is only ever used as a number and is modelled by [0.0]. *)
Definition compare_prices (current_price : float) (new_price : option float)
  : result outcome :=
  match new_price with
  | Some new_price =>
      let price_diff := sub new_price current_price in
      match
        (if gt current_price zero then
           match div price_diff current_price with
           | Ok q => Ok (mul q lit_100)
           | Raise e => Raise e
           end
         else Ok zero)
      with
      | Ok price_diff_pct =>
          if gt (fabs price_diff) lit_0_01
          then Ok (Updated new_price price_diff price_diff_pct)
          else Ok Unchanged
      | Raise e => Raise e
      end
  | None => Ok Error
  end.

(** The percentage as a function of the two prices, division taken as the
    IEEE one. *)
Definition price_diff_pct_of (current_price new_price : float) : float :=
  if gt current_price zero
  then mul (SFdiv prec emax (sub new_price current_price) current_price) lit_100
  else zero.

Section Batch.

Context {W E : Type}.
Variable drv : Driver W E.
(** [str(x)] for a float [x]. *)
Variable str_of_float : float -> string.

Local Abbreviation M := (M W).

(** [float(item.get('SalesUnitPrice', 0))] *)
Definition current_price_of (item : row) : result float :=
  match dict_get item "SalesUnitPrice" with
  | Some s => of_string s
  | None => Ok (of_int 0)
  end.

(** [item.get('ItemCode', item.get('*ItemCode', ''))] *)
Definition item_code_of (item : row) : string :=
  match dict_get item "ItemCode" with
  | Some c => c
  | None => match dict_get item "*ItemCode" with Some c => c | None => "" end
  end.

Definition item_name_of (item : row) : string :=
  match dict_get item "ItemName" with Some n => n | None => "" end.

(** The body of [for i, item in enumerate(items, 1)].  Each row is a
    [dict] of its own, held only by [items]; assigning to
    [item['SalesUnitPrice']] is replacing that row in [items]. *)
Definition process_item (item : row) (rep : report) : M (row * report) :=
  let item_code := item_code_of item in
  let item_name := item_name_of item in
  current_price <- lift (current_price_of item) ;;
  r <- get_price drv item_name ;;
  let '(new_price, source) := r in
  o <- lift (compare_prices current_price new_price) ;;
  let result :=
    match o with
    | Updated new_price price_diff price_diff_pct =>
        (dict_set item "SalesUnitPrice" (str_of_float new_price),
         add_update rep
           {| upd_ItemCode := item_code; upd_ItemName := item_name;
              upd_OldPrice := current_price; upd_NewPrice := new_price;
              upd_Difference := price_diff;
              upd_DifferencePercent := price_diff_pct;
              upd_Source := source |})
    | Unchanged =>
        (item,
         add_unchanged rep
           {| unc_ItemCode := item_code; unc_ItemName := item_name;
              unc_Price := current_price; unc_Source := source |})
    | Error =>
        (item,
         add_error rep
           {| err_ItemCode := item_code; err_ItemName := item_name;
              err_CurrentPrice := current_price;
              err_Error := "Price not found" |})
    end in
  time_sleep drv 1 ;;
  ret result.

Fixpoint process_items (items : list row) (rep : report) : M (list row * report) :=
  match items with
  | [] => ret ([], rep)
  | item :: rest =>
      r <- process_item item rep ;;
      let '(item', rep') := r in
      r' <- process_items rest rep' ;;
      let '(rest', rep'') := r' in
      ret (item' :: rest', rep'')
  end.

(** The table handed to [csv.DictWriter]: the field names, then the rows. *)
Definition csv_table : Type := list string * list row.

(** [process_xero_export], [items] being the rows read from the input
    file.  The result is the table written to [output_file] and the
    returned [(updates, errors, unchanged)]; the text report written from
    these three lists is not modelled.  The scraper starts without a
    driver and is closed on every path. *)
Definition process_xero_export (items : list row) (w : W)
  : result (csv_table * report) * W :=
  let run :=
    try_finally
      (r <- process_items items {| updates := []; errors := []; unchanged := [] |} ;;
       let '(items', rep) := r in
       match items' with
       | [] => raise IndexError
       | first :: _ => ret ((keys first, items'), rep)
       end)
      (close_driver drv) in
  match run (Build_scraper false w) with
  | (r, s) => (r, world s)
  end.

End Batch.

(** How a row handed to the writer may differ from the row that was read:
    not at all, or by the assignment of the new price of one of the
    recorded updates, an update recorded for that row's code and name. *)
Definition kept_or_repriced (str_of_float : float -> string)
           (recorded : list update_entry) (item item' : row) : Prop :=
  item' = item
  \/ exists u, In u recorded
               /\ upd_ItemCode u = item_code_of item
               /\ upd_ItemName u = item_name_of item
               /\ item' = dict_set item "SalesUnitPrice" (str_of_float (upd_NewPrice u)).

(** ** Candidates that do not match

    [none_match read matches products s s']: reading the displayed SKU of
    each of [products] in turn, from state [s], ends in state [s'] and no
    reading passes the test [matches]; a reading that raises counts as one
    that does not match. *)
Inductive none_match {W E : Type} (read : E -> M W string) (matches : string -> bool)
  : list E -> scraper W -> scraper W -> Prop :=
| none_match_nil : forall s, none_match read matches [] s s
| none_match_differs : forall product rest s s1 s2 sku,
    read product s = (Ok sku, s1) ->
    matches sku = false ->
    none_match read matches rest s1 s2 ->
    none_match read matches (product :: rest) s s2
| none_match_unreadable : forall product rest s s1 s2 e,
    read product s = (Raise e, s1) ->
    none_match read matches rest s1 s2 ->
    none_match read matches (product :: rest) s s2.

(* ================================================================= *)
(** * A small browser to run the code on *)

Module Demo.

(** An element of a page: its visible text, its attributes, the
    attributes of its parent, the elements below it (each under the
    selector that finds it) and the address a click on it leads to. *)
#[warnings="-register-all"] Inductive node : Type :=
| Node (txt : string) (attrs : list (string * string))
       (parent_attrs : list (string * string))
       (kids : list (string * node)) (href : option string).

Definition page : Type := list (string * node).

Record web : Type := {
  current : page;
  sites : list (string * page);
  visited : list string
}.

Definition node_kids (n : node) : page :=
  match n with Node _ _ _ k _ => k end.

Fixpoint select (sel : string) (p : page) : list node :=
  match p with
  | [] => []
  | (s, n) :: rest => if String.eqb s sel then n :: select sel rest else select sel rest
  end.

Fixpoint lookup {A} (k : string) (l : list (string * A)) : option A :=
  match l with
  | [] => None
  | (k', v) :: rest => if String.eqb k' k then Some v else lookup k rest
  end.

Definition scope (from : option node) (w : web) : page :=
  match from with Some n => node_kids n | None => current w end.

Definition goto (url : string) (w : web) : web :=
  {| current := match lookup url (sites w) with Some p => p | None => [] end;
     sites := sites w;
     visited := visited w ++ [url] |}.

Definition demo_find_elements (from : option node) (_ : By) (sel : string) (w : web)
  : result (list node) * web :=
  (Ok (select sel (scope from w)), w).

Definition demo_find_element (from : option node) (how : By) (sel : string) (w : web)
  : result node * web :=
  match how, from with
  | XPATH, Some (Node _ _ up _ _) =>
      if String.eqb sel ".." then (Ok (Node "" up [] [] None), w)
      else (Raise NoSuchElementException, w)
  | _, _ =>
      match select sel (scope from w) with
      | n :: _ => (Ok n, w)
      | [] => (Raise NoSuchElementException, w)
      end
  end.

Definition demo_wait (_ : nat) (_ : By) (sel : string) (w : web) : result node * web :=
  match select sel (current w) with
  | n :: _ => (Ok n, w)
  | [] => (Raise TimeoutException, w)
  end.

Definition demo_click (n : node) (w : web) : result unit * web :=
  match n with
  | Node _ _ _ _ (Some url) => (Ok tt, goto url w)
  | _ => (Ok tt, w)
  end.

Definition browser : Driver web node := {|
  launch := fun w => (Ok tt, w);
  configure := fun w => (Ok tt, w);
  quit := fun w => (Ok tt, w);
  get := fun url w => (Ok tt, goto url w);
  sleep := fun _ w => w;
  wait_clickable := demo_wait;
  wait_present := demo_wait;
  find_element := demo_find_element;
  find_elements := demo_find_elements;
  text := fun n w => (Ok (match n with Node t _ _ _ _ => t end), w);
  get_attribute := fun n a w => (Ok (match n with Node _ at_ _ _ _ => lookup a at_ end), w);
  click := demo_click
|}.

(** A driver that cannot even start. *)
Definition dead : Driver unit unit := {|
  launch := fun w => (Raise (OtherException "WebDriverException"), w);
  configure := fun w => (Ok tt, w);
  quit := fun w => (Ok tt, w);
  get := fun _ w => (Raise (OtherException "WebDriverException"), w);
  sleep := fun _ w => w;
  wait_clickable := fun _ _ _ w => (Raise TimeoutException, w);
  wait_present := fun _ _ _ w => (Raise TimeoutException, w);
  find_element := fun _ _ _ w => (Raise NoSuchElementException, w);
  find_elements := fun _ _ _ w => (Raise (OtherException "WebDriverException"), w);
  text := fun _ w => (Raise (OtherException "StaleElementReferenceException"), w);
  get_attribute := fun _ _ w => (Raise (OtherException "StaleElementReferenceException"), w);
  click := fun _ w => (Raise (OtherException "StaleElementReferenceException"), w)
|}.

Definition on (sitemap : list (string * page)) : scraper web :=
  {| driver := false;
     world := {| current := []; sites := sitemap; visited := [] |} |}.

Definition jk_url (q : string) : string :=
  ("https://www.justkampers.com/catalogsearch/result/?q=" ++ q)%string.

Definition heritage_url (q : string) : string :=
  ("https://www.heritagepartscentre.com/uk/catalogsearch/result/?q=" ++ q)%string.

(** A JustKampers result entry: SKU label and the price element. *)
Definition jk_item (label : string) (price : node) : string * node :=
  ("div.product-item",
   Node "" [] [] [("div.amlabel-text", Node label [] [] [] None); ("span.price", price)] None).

(** A Heritage result entry: SKU label and whatever else it holds. *)
Definition heritage_item (label : string) (more : list (string * node))
  : string * node :=
  ("div.product-item-info",
   Node "" [] [] (("div.product__sku mark", Node label [] [] [] None) :: more) None).

Definition grid : string * node := ("products-grid", Node "" [] [] [] None).

(** An element that only shows a text, one that only carries attributes. *)
Definition shows (t : string) : node := Node t [] [] [] None.
Definition carries (attrs : list (string * string)) : node := Node "" attrs [] [] None.

(** [str(x)] on the floats of the examples: whole numbers below [10^16]
    print as their digits followed by [.0]; no other float is printed
    there. *)
Definition whole (x : float) : option Z :=
  match x with
  | S754_zero _ => Some 0%Z
  | S754_finite _ m e =>
      if (0 <=? e)%Z then Some (Zpos m * 2 ^ e)%Z
      else if (Zpos m mod 2 ^ (- e) =? 0)%Z then Some (Zpos m / 2 ^ (- e))%Z
      else None
  | _ => None
  end.

Definition str_of_float (x : float) : string :=
  match whole x with
  | Some n =>
      ((if gt zero x then "-" else "")
         ++ NilZero.string_of_uint (N.to_uint (Z.to_N n)) ++ ".0")%string
  | None => "?"
  end.

(** Two rows of an export, and the sites as they answer for them: Heritage
    lists A1002 at 15.00, JustKampers lists nothing. *)
Definition lens : row :=
  [("ItemCode", "A1002"); ("ItemName", "Rear Light Lens A1002"); ("SalesUnitPrice", "12.50")].

Definition caliper : row :=
  [("ItemCode", "J21066"); ("ItemName", "Brake Caliper J21066"); ("SalesUnitPrice", "0")].

Definition shop : list (string * page) :=
  [ (heritage_url "A1002",
     [ grid;
       heritage_item "A1002"
         [("span.price-wrapper[data-price-including-tax] span.price", shows "15.00")] ]) ].

(** JustKampers lists J21066 with a price attribute of zero. *)
Definition jk_free : list (string * page) :=
  [ (jk_url "J21066",
     [ jk_item "J21066" (carries [("data-price-amount", "0")]) ]) ].

(** Heritage lists A1002 without a price; its product page shows 0.00. *)
Definition heritage_free : list (string * page) :=
  [ (heritage_url "A1002",
     [ grid;
       heritage_item "A1002" [("a.product-item-link", Node "Rear Light Lens" [] [] [] (Some "/a1002"))] ]);
    ("/a1002",
     [ ("span.price-wrapper[data-price-including-tax] span.price", shows "0.00") ]) ].

(** Heritage lists A1002 at 0.00 and at 15.00 under two selectors. *)
Definition heritage_zero_then_price : list (string * page) :=
  [ (heritage_url "A1002",
     [ grid;
       heritage_item "A1002"
         [ ("span.price-wrapper[data-price-including-tax] span.price", shows "0.00");
           ("span[itemprop='lowPrice']", shows "15.00") ] ]) ].




End Demo.

(* ================================================================= *)
(** * Vocabulary for the further properties *)

(** Whether every character of [s] satisfies [p]. *)
Fixpoint all_chars (p : ascii -> bool) (s : string) : bool :=
  match s with
  | EmptyString => true
  | String c rest => p c && all_chars p rest
  end.

Definition first_char (s : string) : option ascii :=
  match s with
  | EmptyString => None
  | String c _ => Some c
  end.

Fixpoint last_char (s : string) : option ascii :=
  match s with
  | EmptyString => None
  | String c rest =>
      match rest with
      | EmptyString => Some c
      | _ => last_char rest
      end
  end.

Definition is_slash (c : ascii) : bool := Ascii.eqb "/" c.

(** A float that is [+0.0], positive and finite, or [+inf]: not negative,
    not [-0.0], not a NaN. *)
Definition is_nonneg (x : float) : bool :=
  match x with
  | S754_zero false | S754_finite false _ _ | S754_infinity false => true
  | _ => false
  end.

(** The same for an optional price, an absent one passing. *)
Definition nonneg_if_present (r : option float) : Prop :=
  match r with
  | Some price => is_nonneg price = true
  | None => True
  end.

(** [yields P m]: whatever [m] returns satisfies [P]. *)
Definition yields {W A : Type} (P : A -> Prop) (m : M W A) : Prop :=
  forall s a s', m s = (Ok a, s') -> P a.

Definition digit_or_dot (c : ascii) : bool := isdigit c || Ascii.eqb c ".".

Definition digit_comma_or_dot (c : ascii) : bool := digit_or_comma c || Ascii.eqb c ".".

(** What every entry of [updates] satisfies. *)
Definition consistent_update (u : update_entry) : Prop :=
  upd_Difference u = sub (upd_NewPrice u) (upd_OldPrice u)
  /\ gt (fabs (upd_Difference u)) lit_0_01 = true
  /\ upd_DifferencePercent u = price_diff_pct_of (upd_OldPrice u) (upd_NewPrice u)
  /\ (upd_Source u = "JustKampers" \/ upd_Source u = "Heritage Parts Centre").

Definition known_source (source : string) : Prop :=
  source = "JustKampers" \/ source = "Heritage Parts Centre".

(** More pages and rows to run the code on. *)
Module Cases.

(** The scraper with its driver up, looking at [p]. *)
Definition looking_at (p : Demo.page) : scraper Demo.web :=
  {| driver := true;
     world := {| Demo.current := p; Demo.sites := []; Demo.visited := [] |} |}.

Definition product_page : Demo.page :=
  [ ("span.price", Demo.shows "now only 1,234.50 GBP") ].


(** The row of [Demo.lens] once repriced at 15.00. *)
Definition lens_repriced : row :=
  dict_set Demo.lens "SalesUnitPrice" (Demo.str_of_float (of_int 15)).

(** A Heritage entry that shows no SKU, only a title, and a price. *)
Definition titled : Demo.node :=
  Demo.Node "" [] []
    [ ("a.product-item-link, h2.product-name", Demo.shows "Rear Light Lens A1002 genuine");
      ("span.price-wrapper[data-price-including-tax] span.price", Demo.shows "15.00") ]
    None.

(** An entry of either site that carries the SKU but neither a price nor a
    link, followed by one that carries the price. *)
Definition bare_then_priced_jk : list Demo.node :=
  [ Demo.Node "" [] [] [("div.amlabel-text", Demo.shows "J21066")] None;
    snd (Demo.jk_item "J21066" (Demo.shows "15.00")) ].

Definition bare_then_priced_heritage : list Demo.node :=
  [ snd (Demo.heritage_item "A1002" []);
    snd (Demo.heritage_item "A1002"
           [("span.price-wrapper[data-price-including-tax] span.price",
             Demo.shows "15.00")]) ].

(** A row of a table that has no price column. *)
Definition priceless : row :=
  [("ItemCode", "A1002"); ("ItemName", "Rear Light Lens A1002")].

End Cases.

(** [stays_up m]: if [self.driver] is set before [m], it is set after it,
    however [m] ends. *)
Definition stays_up {W A : Type} (m : M W A) : Prop :=
  forall s r s', m s = (r, s') -> driver s = true -> driver s' = true.

(** The same driver with another way of launching Chrome, and with another
    way of quitting it. *)
Definition with_launch {W E : Type} (drv : Driver W E)
           (l c : W -> result unit * W) : Driver W E :=
  {| launch := l;
     configure := c;
     quit := quit drv;
     get := get drv;
     sleep := sleep drv;
     wait_clickable := wait_clickable drv;
     wait_present := wait_present drv;
     find_element := find_element drv;
     find_elements := find_elements drv;
     text := text drv;
     get_attribute := get_attribute drv;
     click := click drv |}.

Definition with_quit {W E : Type} (drv : Driver W E)
           (q : W -> result unit * W) : Driver W E :=
  {| launch := launch drv;
     configure := configure drv;
     quit := q;
     get := get drv;
     sleep := sleep drv;
     wait_clickable := wait_clickable drv;
     wait_present := wait_present drv;
     find_element := find_element drv;
     find_elements := find_elements drv;
     text := text drv;
     get_attribute := get_attribute drv;
     click := click drv |}.

(* ================================================================= *)
(** * [test_single_sku.py] and the lookup of [web_app.py] *)

(** Values of mixed type, as a tuple or a report entry holds them. *)
Inductive pyval : Type :=
| VNone
| VFloat (x : float)
| VStr (s : string).

Definition of_option_float (p : option float) : pyval :=
  match p with Some x => VFloat x | None => VNone end.

(** [a, b, c = t]: a tuple of any other length raises [ValueError]. *)
Definition unpack3 (t : list pyval) : result (pyval * pyval * pyval) :=
  match t with
  | [a; b; c] => Ok (a, b, c)
  | _ => Raise ValueError
  end.

(** The entries [process_csv] files under updates and unchanged, and under
    errors. *)
Record web_result : Type := {
  wr_item_code : string;
  wr_item_name : string;
  wr_old_price : float;
  wr_new_price : float;
  wr_difference : float;
  wr_difference_percent : float;
  wr_source : pyval;
  wr_url : pyval
}.

Record web_error : Type := {
  we_item_code : string;
  we_item_name : string;
  we_current_price : float;
  we_error : string
}.

Inductive web_outcome : Type :=
| WebUpdated (r : web_result)
| WebUnchanged (r : web_result)
| WebError (e : web_error).

(** [except (ValueError, AttributeError)] *)
Definition is_ValueError_or_AttributeError (e : exn) : bool :=
  match e with
  | ValueError => true
  | OtherException name => String.eqb name "AttributeError"
  | _ => false
  end.

(** [process_csv]: the current price of a row, [0.0] for an empty or
    unreadable cell. *)
Definition web_current_price (item : row) : result float :=
  let attempt :=
    let price_str :=
      strip (match dict_get item "SalesUnitPrice" with Some v => v | None => "0" end) in
    if nonempty price_str then of_string price_str else Ok zero in
  match attempt with
  | Ok current_price => Ok current_price
  | Raise e => if is_ValueError_or_AttributeError e then Ok zero else Raise e
  end.

Section Callers.

Context {W E : Type}.
Variable drv : Driver W E.
Variable str_of_float : float -> string.

Local Abbreviation M := (M W).

(** [test_sku] of [test_single_sku.py]; what it prints is left out.  The
    variable [price] is bound only if the [try] block gets that far:
    [Some price] below; the final [return price] raises
    [UnboundLocalError] otherwise. *)
Definition test_sku (sku : string) (w : W) : result (option float) * W :=
  let run : M (option (option float)) :=
    try_finally
      (try_except
         (price <- (if startswith sku "J" then search_justkampers drv sku
                    else search_heritage drv sku) ;;
          ret (Some price))
         any_exception
         (ret None))
      (close_driver drv) in
  match run (Build_scraper false w) with
  | (Ok (Some price), s) => (Ok price, world s)
  | (Ok None, s) => (Raise (OtherException "UnboundLocalError"), world s)
  | (Raise e, s) => (Raise e, world s)
  end.

(** [process_csv]: the guarded lookup.  [get_price] returns a tuple of two
    values, which the caller unpacks into three names. *)
Definition web_lookup (item_name : string) : M (pyval * pyval * pyval) :=
  try_except
    (r <- get_price drv item_name ;;
     let '(price, source) := r in
     lift (unpack3 [of_option_float price; VStr source]))
    any_exception
    (ret (VNone, VStr "error", VNone)).

(** [process_csv]: one turn of its loop, as far as the row and its
    classification go; the progress events it emits and the counters of
    the task are left out. *)
Definition web_process_item (item : row) : M (row * web_outcome) :=
  let item_code := item_code_of item in
  let item_name := item_name_of item in
  current_price <- lift (web_current_price item) ;;
  t <- web_lookup item_name ;;
  let '(new_price, source, url) := t in
  match new_price with
  | VNone =>
      ret (item,
           WebError {| we_item_code := item_code; we_item_name := item_name;
                       we_current_price := current_price;
                       we_error := "Price not found" |})
  | VFloat new_price =>
      let price_diff := sub new_price current_price in
      price_diff_pct <-
        (if gt current_price zero then
           q <- lift (div price_diff current_price) ;; ret (mul q lit_100)
         else ret zero) ;;
      let result :=
        {| wr_item_code := item_code; wr_item_name := item_name;
           wr_old_price := current_price; wr_new_price := new_price;
           wr_difference := price_diff; wr_difference_percent := price_diff_pct;
           wr_source := source; wr_url := url |} in
      if gt (fabs price_diff) lit_0_01 then
        ret (dict_set item "SalesUnitPrice" (str_of_float new_price), WebUpdated result)
      else ret (item, WebUnchanged result)
  | VStr _ => raise (OtherException "TypeError")
  end.

End Callers.

(* ================================================================= *)
(** * Proof tools *)

(** Case analysis on the first [match] of a hypothesis, keeping the
    equation. *)
Ltac break_match_in H :=
  match type of H with
  | context [match ?x with _ => _ end] => destruct x eqn:?
  end.

(* ================================================================= *)
(** * Properties *)

Local Open Scope string_scope.

(** ** The code on a few inputs *)

Example extract_brake_caliper :
  extract_sku_from_name "Brake Caliper J21066" = ("Brake Caliper", "J21066").
Proof. reflexivity. Qed.

Example extract_two_slashes : extract_sku_from_name "Lens  ABC//" = ("Lens", "ABC").
Proof. reflexivity. Qed.

Example search_price_thousands : search_price "GBP 1,234.50 inc" = Some "1,234.50".
Proof. reflexivity. Qed.

Example search_price_lone_comma : search_price ", from 5.00" = Some ",".
Proof. reflexivity. Qed.

Example float_of_15_00 : of_string "15.00" = Ok (of_int 15).
Proof. reflexivity. Qed.

Example float_of_empty : of_string "" = Raise ValueError.
Proof. reflexivity. Qed.

Example float_of_padded_exponent : of_string " 1_500e-2 " = Ok (of_int 15).
Proof. reflexivity. Qed.

(** ** Strings *)

Lemma rsplit_last_absent (sep : ascii) (s : string) :
  any_char (fun c => Ascii.eqb c sep) s = false -> rsplit_last sep s = None.
Proof.
  induction s as [|c rest IH]; simpl; intro H; [reflexivity|].
  apply orb_false_iff in H as [Hc Hrest].
  rewrite (IH Hrest), Hc. reflexivity.
Qed.

Lemma rsplit_last_at_last (sep : ascii) (before after : string) :
  any_char (fun c => Ascii.eqb c sep) after = false ->
  rsplit_last sep (before ++ String sep after) = Some (before, after).
Proof.
  intro H. induction before as [|c rest IH]; simpl.
  - rewrite (rsplit_last_absent _ _ H), Ascii.eqb_refl. reflexivity.
  - rewrite IH. reflexivity.
Qed.

Lemma isspace_space_char (c : ascii) : is_space_char c = true -> isspace c = true.
Proof.
  unfold is_space_char. intro H. apply Ascii.eqb_eq in H. subst c. reflexivity.
Qed.

Lemma no_whitespace_no_space (s : string) :
  any_char isspace s = false -> any_char is_space_char s = false.
Proof.
  induction s as [|c rest IH]; simpl; intro H; [reflexivity|].
  apply orb_false_iff in H as [Hc Hrest].
  rewrite (IH Hrest), orb_false_r.
  destruct (is_space_char c) eqn:Hs; [|reflexivity].
  apply isspace_space_char in Hs. congruence.
Qed.

Lemma extract_sku_no_space (item_name : string) :
  any_char is_space_char item_name = false ->
  extract_sku_from_name item_name = (item_name, "").
Proof.
  intro H. unfold extract_sku_from_name, rsplit1.
  rewrite (rsplit_last_absent " " item_name H). reflexivity.
Qed.

(** ** The router *)

(** C7.  On a non-empty identifier the router looks at the first character
    only: an upper-case [J] selects JustKampers, anything else (a lower-case
    [j] included) selects Heritage; the router is a total function. *)
Theorem determine_website_first_character :
  (forall (c : ascii) (rest : string),
      determine_website (String c rest) =
      if Ascii.eqb c "J" then "justkampers" else "heritage")
  /\ (forall (c : ascii) (rest rest' : string),
         determine_website (String c rest) = determine_website (String c rest'))
  /\ (forall rest : string, determine_website (String "j" rest) = "heritage")
  /\ (forall sku : string,
         determine_website sku = "justkampers" \/ determine_website sku = "heritage").
Proof.
  assert (first : forall c rest,
             determine_website (String c rest) =
             if Ascii.eqb c "J" then "justkampers" else "heritage").
  { intros c rest. unfold determine_website, startswith.
    change (prefix "J" (String c rest))
      with (if ascii_dec "J" c then prefix "" rest else false).
    destruct (ascii_dec "J" c) as [e|n].
    - subst c. destruct rest; reflexivity.
    - destruct (Ascii.eqb c "J") eqn:Hc; [|reflexivity].
      apply Ascii.eqb_eq in Hc. congruence. }
  split; [|split; [|split]].
  - exact first.
  - intros c rest rest'. rewrite !first. reflexivity.
  - intro rest. rewrite first. reflexivity.
  - intro sku. unfold determine_website. destruct (startswith sku "J"); auto.
Qed.

(** ** The extractor *)

(** C5, as the code has it.  The name is split at its last space character
    (U+0020); the identifier is the text after that space, trimmed of
    surrounding whitespace and then of every trailing slash, and the
    description is the trimmed text before it.  A name without a space has
    an empty identifier.  The extractor is a total function. *)
Theorem extract_sku_from_name_last_space :
  (forall description sku : string,
      any_char is_space_char sku = false ->
      extract_sku_from_name (description ++ String " " sku) =
      (strip description, rstrip_slash (strip sku)))
  /\ (forall item_name : string,
         any_char is_space_char item_name = false ->
         extract_sku_from_name item_name = (item_name, "")).
Proof.
  split.
  - intros description sku H. unfold extract_sku_from_name, rsplit1.
    rewrite (rsplit_last_at_last " " description sku H). reflexivity.
  - exact extract_sku_no_space.
Qed.

Lemma extract_sku_from_name_last_space_witness :
  extract_sku_from_name ("Brake Caliper" ++ String " " "J21066/") =
  (strip "Brake Caliper", rstrip_slash (strip "J21066/"))
  /\ extract_sku_from_name "J21066" = ("J21066", "").
Proof.
  split.
  - apply (proj1 extract_sku_from_name_last_space). reflexivity.
  - apply (proj2 extract_sku_from_name_last_space). reflexivity.
Defined.

(** C5 as the specification words it fails twice: a name whose only
    whitespace is a TAB is not split at all, and two trailing slashes are
    both removed. *)
Lemma extract_sku_from_name_not_spec_identifier :
  (any_char isspace ("Lens" ++ String "009" "ABC") = true
   /\ snd (extract_sku_from_name ("Lens" ++ String "009" "ABC")) = ""
   /\ spec_identifier ("Lens" ++ String "009" "ABC") = "ABC")
  /\ (any_char isspace "Lens ABC//" = true
      /\ snd (extract_sku_from_name "Lens ABC//") = "ABC"
      /\ spec_identifier "Lens ABC//" = "ABC/")
  /\ ~ (forall item_name : string,
           any_char isspace item_name = true ->
           snd (extract_sku_from_name item_name) = spec_identifier item_name).
Proof.
  repeat split.
  intro H. specialize (H "Lens ABC//" eq_refl). discriminate H.
Qed.

(** ** Exceptions stop at the adapters *)

Lemma try_except_any_ok {W A} (m : M W A) (h : M W A) (s : scraper W) (a : A) (s' : scraper W) :
  m s = (Ok a, s') -> try_except m any_exception h s = (Ok a, s').
Proof. intro H. unfold try_except. rewrite H. reflexivity. Qed.

Lemma try_except_any_raise {W A} (m : M W A) (h : M W A) (s : scraper W) (e : exn) (s' : scraper W) :
  m s = (Raise e, s') -> try_except m any_exception h s = h s'.
Proof. intro H. unfold try_except. rewrite H. reflexivity. Qed.

Lemma try_except_any_ret {W A} (m : M W A) (a : A) (s : scraper W) :
  exists r s', try_except m any_exception (ret a) s = (Ok r, s').
Proof.
  unfold try_except. destruct (m s) as [[r|e] s'].
  - exists r, s'. reflexivity.
  - exists a, s'. reflexivity.
Qed.

Section Totality.

Context {W E : Type}.
Variable drv : Driver W E.

Lemma search_justkampers_returns (sku : string) (s : scraper W) :
  exists price s', search_justkampers drv sku s = (Ok price, s').
Proof. apply try_except_any_ret. Qed.

Lemma search_heritage_returns (sku : string) (s : scraper W) :
  exists price s', search_heritage drv sku s = (Ok price, s').
Proof. apply try_except_any_ret. Qed.

(** [get_price] unfolded along the three ways it can go. *)
Lemma get_price_cases (item_name : string) (s : scraper W) :
  let sku := snd (extract_sku_from_name item_name) in
  (sku = "" /\ get_price drv item_name s = (Ok (None, "unknown"), s))
  \/ (sku <> "" /\ startswith sku "J" = true /\
      exists price s', search_justkampers drv sku s = (Ok price, s') /\
                       get_price drv item_name s = (Ok (price, "JustKampers"), s'))
  \/ (sku <> "" /\ startswith sku "J" = false /\
      exists price s', search_heritage drv sku s = (Ok price, s') /\
                       get_price drv item_name s = (Ok (price, "Heritage Parts Centre"), s')).
Proof.
  unfold get_price. destruct (extract_sku_from_name item_name) as [description sku].
  cbn [snd]. destruct sku as [|c rest].
  - left. split; reflexivity.
  - right. cbn [nonempty negb]. unfold determine_website.
    destruct (startswith (String c rest) "J") eqn:HJ.
    + left. split; [discriminate|]. split; [reflexivity|].
      destruct (search_justkampers_returns (String c rest) s) as (price & s' & H).
      exists price, s'. split; [exact H|].
      change ("justkampers" =? "justkampers") with true. cbv iota.
      unfold bind. rewrite H. reflexivity.
    + right. split; [discriminate|]. split; [reflexivity|].
      destruct (search_heritage_returns (String c rest) s) as (price & s' & H).
      exists price, s'. split; [exact H|].
      change ("heritage" =? "justkampers") with false. cbv iota.
      unfold bind. rewrite H. reflexivity.
Qed.

Lemma get_price_returns (item_name : string) (s : scraper W) :
  exists price source s', get_price drv item_name s = (Ok (price, source), s').
Proof.
  destruct (get_price_cases item_name s) as [[_ H]|[(_ & _ & p & s' & _ & H)|(_ & _ & p & s' & _ & H)]];
    rewrite H; eauto.
Qed.

End Totality.

(** ** The facade *)

(** C6, as the code has it.  A name without whitespace has an empty
    identifier, and [get_price] answers with an absent price and the source
    ["unknown"] (lower case; the result is a pair and carries no URL)
    whatever the driver is, leaving the scraper and the world as they
    were: no adapter ran. *)
Theorem get_price_without_identifier :
  forall (W E : Type) (drv : Driver W E) (item_name : string) (s : scraper W),
    any_char isspace item_name = false ->
    snd (extract_sku_from_name item_name) = ""
    /\ get_price drv item_name s = (Ok (None, "unknown"), s).
Proof.
  intros W E drv item_name s H.
  apply no_whitespace_no_space in H.
  unfold get_price. rewrite (extract_sku_no_space item_name H).
  split; reflexivity.
Qed.

Lemma get_price_without_identifier_witness :
  snd (extract_sku_from_name "J21066") = ""
  /\ get_price Demo.browser "J21066" (Demo.on []) = (Ok (None, "unknown"), Demo.on []).
Proof.
  apply (get_price_without_identifier _ _ Demo.browser "J21066" (Demo.on [])).
  reflexivity.
Defined.

(** C6 as the specification words it: the source returned is not the
    string ["Unknown"]. *)
Lemma get_price_source_is_not_Unknown :
  any_char isspace "J21066" = false
  /\ fst (get_price Demo.browser "J21066" (Demo.on [])) = Ok (None, "unknown")
  /\ ~ (exists price, fst (get_price Demo.browser "J21066" (Demo.on [])) = Ok (price, "Unknown")).
Proof.
  split; [reflexivity|]. split; [reflexivity|].
  intros [price H]. cbv in H. discriminate H.
Qed.

(** C10.  Whenever the extracted identifier is not empty, [get_price]
    returns whatever the routed adapter returned, an absent price included,
    under that catalog's display name; the source is ["unknown"] only for
    an empty identifier. *)
Theorem get_price_source_tag :
  forall (W E : Type) (drv : Driver W E) (item_name : string) (s : scraper W),
    let sku := snd (extract_sku_from_name item_name) in
    (sku <> "" ->
     (startswith sku "J" = true /\
      exists price s', search_justkampers drv sku s = (Ok price, s') /\
                       get_price drv item_name s = (Ok (price, "JustKampers"), s'))
     \/ (startswith sku "J" = false /\
         exists price s', search_heritage drv sku s = (Ok price, s') /\
                          get_price drv item_name s = (Ok (price, "Heritage Parts Centre"), s')))
    /\ (forall price s', get_price drv item_name s = (Ok (price, "unknown"), s') ->
                         sku = "" /\ price = None).
Proof.
  intros W E drv item_name s sku.
  destruct (get_price_cases drv item_name s)
    as [[H0 H]|[(Hne & HJ & p & s1 & Ha & H)|(Hne & HJ & p & s1 & Ha & H)]];
    fold sku in H0 || fold sku in Hne, HJ, Ha.
  - split; [intro Hne; contradiction|].
    intros price s' H'. rewrite H in H'. inversion H'. split; [exact H0|reflexivity].
  - split; [intros _; left; split; [exact HJ|exists p, s1; split; assumption]|].
    intros price s' H'. rewrite H in H'. discriminate H'.
  - split; [intros _; right; split; [exact HJ|exists p, s1; split; assumption]|].
    intros price s' H'. rewrite H in H'. discriminate H'.
Qed.

Lemma get_price_source_tag_witness :
  snd (extract_sku_from_name "Brake Caliper J21066") <> ""
  /\ exists s', get_price Demo.browser "Brake Caliper J21066" (Demo.on []) =
                (Ok (None, "JustKampers"), s').
Proof.
  split; [discriminate|].
  pose proof (proj1 (get_price_source_tag _ _ Demo.browser "Brake Caliper J21066" (Demo.on [])))
    as H.
  cbv zeta in H.
  destruct H as [(_ & price & s' & Hs & Hg)|(HJ & _)]; [discriminate| |discriminate HJ].
  exists s'. rewrite Hg. cbv in Hs. inversion Hs. reflexivity.
Defined.

(** ** The comparison step *)

Lemma gt_zero_not_zero (x : float) : gt x zero = true -> feq x zero = false.
Proof.
  destruct x as [s|s| |s m e]; cbv [gt feq zero SFltb SFeqb SFcompare];
    try destruct s; intro H; try reflexivity; discriminate H.
Qed.

Lemma div_positive_ok (x y : float) :
  gt y zero = true -> div x y = Ok (SFdiv prec emax x y).
Proof. intro H. unfold div. rewrite (gt_zero_not_zero y H). reflexivity. Qed.

Lemma compare_prices_present (current_price new_price : float) :
  compare_prices current_price (Some new_price) =
  Ok (if gt (fabs (sub new_price current_price)) lit_0_01
      then Updated new_price (sub new_price current_price)
             (price_diff_pct_of current_price new_price)
      else Unchanged).
Proof.
  unfold compare_prices, price_diff_pct_of.
  destruct (gt current_price zero) eqn:Hpos.
  - rewrite (div_positive_ok _ _ Hpos).
    destruct (gt (fabs (sub new_price current_price)) lit_0_01); reflexivity.
  - destruct (gt (fabs (sub new_price current_price)) lit_0_01); reflexivity.
Qed.

Lemma compare_prices_returns (current_price : float) (new_price : option float) :
  exists o, compare_prices current_price new_price = Ok o.
Proof.
  destruct new_price as [new_price|].
  - rewrite compare_prices_present. eauto.
  - exists Error. reflexivity.
Qed.



(** C9.  The comparison step never raises [ZeroDivisionError]: it divides
    only by a current price that is strictly positive, reports a percentage
    of [0] otherwise, and with an absent new price computes nothing and
    answers Error. *)
Theorem compare_prices_never_divides_by_zero :
  forall (current_price : float) (new_price : option float),
    (exists o, compare_prices current_price new_price = Ok o)
    /\ (forall new d pct,
           compare_prices current_price (Some new) = Ok (Updated new d pct) ->
           if gt current_price zero
           then feq current_price zero = false
                /\ div (sub new current_price) current_price
                   = Ok (SFdiv prec emax (sub new current_price) current_price)
                /\ pct = mul (SFdiv prec emax (sub new current_price) current_price) lit_100
           else pct = zero)
    /\ compare_prices current_price None = Ok Error.
Proof.
  intros current_price new_price.
  split; [apply compare_prices_returns|]. split; [|reflexivity].
  intros new d pct H. rewrite compare_prices_present in H.
  unfold price_diff_pct_of in H.
  destruct (gt (fabs (sub new current_price)) lit_0_01); [|discriminate H].
  destruct (gt current_price zero) eqn:Hpos.
  - split; [exact (gt_zero_not_zero _ Hpos)|].
    split; [exact (div_positive_ok _ _ Hpos)|].
    inversion H. reflexivity.
  - inversion H. reflexivity.
Qed.

Lemma compare_prices_never_divides_by_zero_witness :
  exists pct,
    compare_prices zero (Some lit_100) = Ok (Updated lit_100 lit_100 pct)
    /\ pct = zero.
Proof.
  exists zero. split; [reflexivity|].
  exact (proj1 (proj2 (compare_prices_never_divides_by_zero zero None))
           lit_100 lit_100 zero eq_refl).
Defined.

(** The example of the specification: 12.50 against 15.00 is an update of
    +2.50, +20.0 percent. *)
Example compare_12_50_with_15_00 :
  forall old new, of_string "12.50" = Ok old -> of_string "15.00" = Ok new ->
    Ok (Updated new (of_decimal false 25 (-1)) (of_int 20)) = compare_prices old (Some new).
Proof. intros old new Ho Hn. inversion Ho. inversion Hn. reflexivity. Qed.

(** Binary floats at the boundary: the floats nearest to 1.00 and 1.01 are
    further apart than the float nearest to 0.01, those nearest to 12.50 and
    12.51 are closer. *)
Example compare_1_00_with_1_01 :
  forall old new, of_string "1.00" = Ok old -> of_string "1.01" = Ok new ->
    exists d pct, compare_prices old (Some new) = Ok (Updated new d pct).
Proof. intros old new Ho Hn. inversion Ho. inversion Hn. do 2 eexists. reflexivity. Qed.

Example compare_12_50_with_12_51 :
  forall old new, of_string "12.50" = Ok old -> of_string "12.51" = Ok new ->
    compare_prices old (Some new) = Ok Unchanged.
Proof. intros old new Ho Hn. inversion Ho. inversion Hn. reflexivity. Qed.

(** ** The batch loop *)

Section BatchProperties.

Context {W E : Type}.
Variable drv : Driver W E.
Variable str_of_float : float -> string.

(** One turn of the loop, once the current price has been read and
    [get_price] has answered. *)
Lemma process_item_unfold (item : row) (rep : report) (s s1 : scraper W)
      (current_price : float) (new_price : option float) (source : string) :
  current_price_of item = Ok current_price ->
  get_price drv (item_name_of item) s = (Ok (new_price, source), s1) ->
  process_item drv str_of_float item rep s =
  (Ok match new_price with
      | None =>
          (item,
           add_error rep
             {| err_ItemCode := item_code_of item; err_ItemName := item_name_of item;
                err_CurrentPrice := current_price; err_Error := "Price not found" |})
      | Some new =>
          if gt (fabs (sub new current_price)) lit_0_01 then
            (dict_set item "SalesUnitPrice" (str_of_float new),
             add_update rep
               {| upd_ItemCode := item_code_of item; upd_ItemName := item_name_of item;
                  upd_OldPrice := current_price; upd_NewPrice := new;
                  upd_Difference := sub new current_price;
                  upd_DifferencePercent := price_diff_pct_of current_price new;
                  upd_Source := source |})
          else
            (item,
             add_unchanged rep
               {| unc_ItemCode := item_code_of item; unc_ItemName := item_name_of item;
                  unc_Price := current_price; unc_Source := source |})
      end,
   slept drv 1 s1).
Proof.
  intros Hcur Hget. unfold process_item, bind, lift. rewrite Hcur, Hget.
  destruct new_price as [new|].
  - rewrite compare_prices_present.
    destruct (gt (fabs (sub new current_price)) lit_0_01); reflexivity.
  - reflexivity.
Qed.

Lemma process_item_returns (item : row) (rep : report) (s : scraper W) (current_price : float) :
  current_price_of item = Ok current_price ->
  exists item' rep' s',
    process_item drv str_of_float item rep s = (Ok (item', rep'), s')
    /\ entries rep' = S (entries rep).
Proof.
  intro Hcur.
  destruct (get_price_returns drv (item_name_of item) s) as (new_price & source & s1 & Hget).
  rewrite (process_item_unfold item rep s s1 current_price new_price source Hcur Hget).
  destruct new_price as [new|];
    [destruct (gt (fabs (sub new current_price)) lit_0_01)|];
    do 3 eexists; (split; [reflexivity|]);
    unfold entries; cbn [updates errors unchanged add_update add_unchanged add_error];
    rewrite length_app; simpl; lia.
Qed.

Lemma process_items_cons (item : row) (rest : list row) (rep : report) (s : scraper W)
      (item' : row) (rep' : report) (s' : scraper W) :
  process_item drv str_of_float item rep s = (Ok (item', rep'), s') ->
  process_items drv str_of_float (item :: rest) rep s =
  match process_items drv str_of_float rest rep' s' with
  | (Ok (rest', rep''), s'') => (Ok (item' :: rest', rep''), s'')
  | (Raise e, s'') => (Raise e, s'')
  end.
Proof.
  intro H. cbn [process_items]. unfold bind. rewrite H.
  destruct (process_items drv str_of_float rest rep' s') as [[[rest' rep'']|e] s'']; reflexivity.
Qed.

Lemma process_items_returns (items : list row) :
  Forall (fun item => exists p, current_price_of item = Ok p) items ->
  forall (rep : report) (s : scraper W),
  exists items' rep' s',
    process_items drv str_of_float items rep s = (Ok (items', rep'), s')
    /\ length items' = length items
    /\ entries rep' = entries rep + length items.
Proof.
  induction 1 as [|item rest [p Hp] _ IH]; intros rep s.
  - exists [], rep, s. cbn. repeat split. lia.
  - destruct (process_item_returns item rep s p Hp) as (item' & rep1 & s1 & H1 & E1).
    destruct (IH rep1 s1) as (rest' & rep2 & s2 & H2 & L2 & E2).
    exists (item' :: rest'), rep2, s2.
    rewrite (process_items_cons _ _ _ _ _ _ _ H1), H2.
    split; [reflexivity|]. cbn [length]. split; lia.
Qed.

End BatchProperties.

(** C3.  Neither adapter ever raises: whatever its body raises is turned
    into an absent price.  In the batch loop an item whose price is absent
    is recorded as an error and the loop goes on with the next item; over
    rows whose current price reads as a number the loop runs to its end,
    one report entry per row, whatever the driver does. *)
Theorem lookup_failures_do_not_abort :
  forall (W E : Type) (drv : Driver W E) (str_of_float : float -> string),
    (forall sku s, exists price s', search_justkampers drv sku s = (Ok price, s'))
    /\ (forall sku s, exists price s', search_heritage drv sku s = (Ok price, s'))
    /\ (forall sku s e s',
           search_justkampers_body drv sku s = (Raise e, s') ->
           search_justkampers drv sku s = (Ok None, s'))
    /\ (forall sku s e s',
           search_heritage_body drv sku s = (Raise e, s') ->
           search_heritage drv sku s = (Ok None, s'))
    /\ (forall item rest rep s current_price source s1,
           current_price_of item = Ok current_price ->
           get_price drv (item_name_of item) s = (Ok (None, source), s1) ->
           process_items drv str_of_float (item :: rest) rep s =
           match
             process_items drv str_of_float rest
               (add_error rep
                  {| err_ItemCode := item_code_of item; err_ItemName := item_name_of item;
                     err_CurrentPrice := current_price; err_Error := "Price not found" |})
               (slept drv 1 s1)
           with
           | (Ok (rest', rep'), s') => (Ok (item :: rest', rep'), s')
           | (Raise e, s') => (Raise e, s')
           end)
    /\ (forall items rep s,
           Forall (fun item => exists p, current_price_of item = Ok p) items ->
           exists items' rep' s',
             process_items drv str_of_float items rep s = (Ok (items', rep'), s')
             /\ length items' = length items
             /\ entries rep' = entries rep + length items).
Proof.
  intros W E drv str_of_float.
  split; [exact (search_justkampers_returns drv)|].
  split; [exact (search_heritage_returns drv)|].
  split; [intros sku s e s' H; exact (try_except_any_raise _ _ _ _ _ H)|].
  split; [intros sku s e s' H; exact (try_except_any_raise _ _ _ _ _ H)|].
  split.
  - intros item rest rep s current_price source s1 Hcur Hget.
    apply process_items_cons.
    exact (process_item_unfold drv str_of_float item rep s s1 current_price None source Hcur Hget).
  - intros items rep s H. exact (process_items_returns drv str_of_float items H rep s).
Qed.

(** ** What the batch writes back *)

Lemma dict_get_set_other (d : row) (k v k' : string) :
  k' <> k -> dict_get (dict_set d k v) k' = dict_get d k'.
Proof.
  intro Hne. induction d as [|[k0 v0] rest IH]; cbn [dict_set dict_get].
  - destruct (String.eqb_spec k k'); [congruence|reflexivity].
  - destruct (String.eqb_spec k0 k) as [->|Hk0]; cbn [dict_get].
    + destruct (String.eqb_spec k k'); [congruence|reflexivity].
    + rewrite IH. reflexivity.
Qed.

Lemma dict_get_set_same (d : row) (k v : string) :
  dict_get (dict_set d k v) k = Some v.
Proof.
  induction d as [|[k0 v0] rest IH]; cbn [dict_set dict_get].
  - rewrite String.eqb_refl. reflexivity.
  - destruct (String.eqb_spec k0 k) as [->|Hk0]; cbn [dict_get].
    + rewrite String.eqb_refl. reflexivity.
    + destruct (String.eqb_spec k0 k); [contradiction|exact IH].
Qed.

Lemma keys_dict_set (d : row) (k v : string) :
  In k (keys d) -> keys (dict_set d k v) = keys d.
Proof.
  unfold keys. induction d as [|[k0 v0] rest IH]; cbn [dict_set map fst In].
  - intros [].
  - intros [Hk|Hin]; destruct (String.eqb_spec k0 k) as [->|Hk0]; cbn [map fst];
      try reflexivity; try contradiction.
    rewrite (IH Hin). reflexivity.
Qed.

(** Cell by cell: [dict_set] on a present key keeps every cell's column, and
    the text of every cell of another column. *)
Lemma dict_set_cells (d : row) (k v : string) :
  In k (keys d) ->
  Forall2 (fun cell cell' => fst cell' = fst cell /\ (fst cell <> k -> cell' = cell))
          d (dict_set d k v).
Proof.
  assert (same : forall l : row,
             Forall2 (fun cell cell' : string * string =>
                        fst cell' = fst cell /\ (fst cell <> k -> cell' = cell)) l l).
  { induction l; constructor; auto. }
  unfold keys. induction d as [|[k0 v0] rest IH]; cbn [dict_set map fst In].
  - intros [].
  - intro Hin. destruct (String.eqb_spec k0 k) as [->|Hk0].
    + constructor; [|apply same]. cbn. split; [reflexivity|congruence].
    + constructor.
      * split; [reflexivity|reflexivity].
      * apply IH. destruct Hin as [Hk|Hin]; [contradiction|exact Hin].
Qed.

Section BatchFrame.

Context {W E : Type}.
Variable drv : Driver W E.
Variable str_of_float : float -> string.

Lemma process_item_reads_price (item : row) (rep : report) (s : scraper W)
      (res : row * report) (s' : scraper W) :
  process_item drv str_of_float item rep s = (Ok res, s') ->
  exists current_price, current_price_of item = Ok current_price.
Proof.
  unfold process_item, bind, lift.
  destruct (current_price_of item) as [p|e]; [eauto|discriminate].
Qed.

(** One turn of the loop either records an update and assigns its new price
    to the row, or records an error or an unchanged price and leaves the
    row alone. *)
Lemma process_item_frame (item : row) (rep : report) (s : scraper W)
      (item' : row) (rep' : report) (s' : scraper W) :
  process_item drv str_of_float item rep s = (Ok (item', rep'), s') ->
  (exists u, rep' = add_update rep u
             /\ upd_ItemCode u = item_code_of item
             /\ upd_ItemName u = item_name_of item
             /\ item' = dict_set item "SalesUnitPrice" (str_of_float (upd_NewPrice u)))
  \/ (item' = item
      /\ ((exists e, rep' = add_error rep e) \/ (exists u, rep' = add_unchanged rep u))).
Proof.
  intro H. destruct (process_item_reads_price _ _ _ _ _ H) as [cur Hcur].
  destruct (get_price_returns drv (item_name_of item) s) as (new_price & source & s1 & Hget).
  rewrite (process_item_unfold drv str_of_float item rep s s1 cur new_price source Hcur Hget) in H.
  destruct new_price as [new|];
    [destruct (gt (fabs (sub new cur)) lit_0_01)|]; inversion H; subst.
  - left. eexists. repeat split.
  - right. split; [reflexivity|]. right. eexists. reflexivity.
  - right. split; [reflexivity|]. left. eexists. reflexivity.
Qed.

Lemma process_items_cons_inv (item : row) (rest : list row) (rep : report) (s : scraper W)
      (items' : list row) (rep' : report) (s' : scraper W) :
  process_items drv str_of_float (item :: rest) rep s = (Ok (items', rep'), s') ->
  exists item1 rep1 s1 rest',
    process_item drv str_of_float item rep s = (Ok (item1, rep1), s1)
    /\ process_items drv str_of_float rest rep1 s1 = (Ok (rest', rep'), s')
    /\ items' = item1 :: rest'.
Proof.
  cbn [process_items]. unfold bind.
  destruct (process_item drv str_of_float item rep s) as [[[item1 rep1]|e] s1] eqn:H1;
    [|discriminate].
  destruct (process_items drv str_of_float rest rep1 s1) as [[[rest' rep2]|e] s2] eqn:H2;
    [|discriminate].
  unfold ret. intro H. inversion H. subst.
  exists item1, rep1, s1, rest'. split; [reflexivity|]. split; [exact H2|reflexivity].
Qed.

Lemma kept_or_repriced_more (recorded more_before more_after : list update_entry)
      (item item' : row) :
  kept_or_repriced str_of_float recorded item item' ->
  kept_or_repriced str_of_float (more_before ++ recorded ++ more_after)%list item item'.
Proof.
  intros [H|(u & Hin & H)]; [left; exact H|].
  right. exists u. split; [|exact H].
  apply in_or_app. right. apply in_or_app. left. exact Hin.
Qed.

Lemma process_items_frame (items : list row) :
  forall (rep : report) (s : scraper W) (items' : list row) (rep' : report) (s' : scraper W),
    process_items drv str_of_float items rep s = (Ok (items', rep'), s') ->
    exists added,
      updates rep' = (updates rep ++ added)%list
      /\ Forall2 (kept_or_repriced str_of_float added) items items'.
Proof.
  induction items as [|item rest IH]; intros rep s items' rep' s' H.
  - cbn in H. inversion H. subst. exists []. rewrite app_nil_r. split; constructor.
  - destruct (process_items_cons_inv _ _ _ _ _ _ _ H)
      as (item1 & rep1 & s1 & rest' & H1 & H2 & ->).
    destruct (IH _ _ _ _ _ H2) as (added & Hupd & Hrest).
    destruct (process_item_frame _ _ _ _ _ _ H1)
      as [(u & -> & Hc & Hn & ->)|(-> & Hrep)].
    + exists (u :: added). split.
      * rewrite Hupd. cbn [updates add_update]. rewrite <- app_assoc. reflexivity.
      * constructor.
        -- right. exists u. repeat split; [left; reflexivity|exact Hc|exact Hn].
        -- eapply Forall2_impl; [|exact Hrest].
           intros a b Hab. apply (kept_or_repriced_more added [u] [] a b) in Hab.
           rewrite app_nil_r in Hab. exact Hab.
    + exists added. split.
      * rewrite Hupd. destruct Hrep as [[e ->]|[u ->]]; reflexivity.
      * constructor; [left; reflexivity|exact Hrest].
Qed.

Lemma process_xero_export_inv (items : list row) (w : W)
      (fieldnames : list string) (rows : list row) (rep : report) (w' : W) :
  process_xero_export drv str_of_float items w = (Ok ((fieldnames, rows), rep), w') ->
  exists s',
    process_items drv str_of_float items
      {| updates := []; errors := []; unchanged := [] |} (Build_scraper false w)
    = (Ok (rows, rep), s')
    /\ exists first rest, rows = first :: rest /\ fieldnames = keys first.
Proof.
  unfold process_xero_export, try_finally, bind.
  destruct (process_items drv str_of_float items _ _) as [[[rows0 rep0]|e] s0].
  - destruct rows0 as [|first rest]; cbn [raise ret].
    + destruct (close_driver drv s0) as [[u|e] s1]; discriminate.
    + destruct (close_driver drv s0) as [[u|e] s1]; [|discriminate].
      intro H. inversion H. subst. exists s0. split; [reflexivity|].
      exists first, rest. split; reflexivity.
  - destruct (close_driver drv s0) as [[u|e'] s1]; discriminate.
Qed.

End BatchFrame.

(** C8.  The rows handed to the CSV writer are the rows read, in the same
    order; a row differs from its input only by the assignment of a new
    price to [SalesUnitPrice], and only when that turn of the loop recorded
    an update; rows recorded as unchanged or as errors are identical.  On a
    row that has the column the assignment keeps the columns and their
    order and every other cell, so the header, taken from the first row, is
    the input's. *)
Theorem process_xero_export_frame :
  forall (W E : Type) (drv : Driver W E) (str_of_float : float -> string),
    (forall item rep s item' rep' s',
        process_item drv str_of_float item rep s = (Ok (item', rep'), s') ->
        (exists u, rep' = add_update rep u
                   /\ upd_ItemCode u = item_code_of item
                   /\ upd_ItemName u = item_name_of item
                   /\ item' = dict_set item "SalesUnitPrice" (str_of_float (upd_NewPrice u)))
        \/ (item' = item
            /\ ((exists e, rep' = add_error rep e) \/ (exists u, rep' = add_unchanged rep u))))
    /\ (forall items w fieldnames rows rep w',
           process_xero_export drv str_of_float items w = (Ok ((fieldnames, rows), rep), w') ->
           Forall2 (kept_or_repriced str_of_float (updates rep)) items rows
           /\ length rows = length items
           /\ (forall first rest, items = first :: rest ->
                                  In "SalesUnitPrice" (keys first) -> fieldnames = keys first))
    /\ (forall (item : row) (v : string),
           In "SalesUnitPrice" (keys item) ->
           keys (dict_set item "SalesUnitPrice" v) = keys item
           /\ Forall2 (fun cell cell' =>
                         fst cell' = fst cell /\ (fst cell <> "SalesUnitPrice" -> cell' = cell))
                      item (dict_set item "SalesUnitPrice" v))
    /\ (forall (item : row) (v k : string),
           k <> "SalesUnitPrice" ->
           dict_get (dict_set item "SalesUnitPrice" v) k = dict_get item k).
Proof.
  intros W E drv str_of_float.
  split; [exact (process_item_frame drv str_of_float)|].
  split; [|split].
  - intros items w fieldnames rows rep w' H.
    destruct (process_xero_export_inv _ _ _ _ _ _ _ _ H) as (s' & Hrun & first' & rest' & -> & ->).
    destruct (process_items_frame _ _ _ _ _ _ _ _ Hrun) as (added & Hupd & Hrows).
    cbn [updates app] in Hupd. rewrite Hupd.
    split; [exact Hrows|]. split; [symmetry; exact (Forall2_length Hrows)|].
    intros first rest -> Hcol. inversion Hrows as [|a b l l' Hfirst Hrest]; subst.
    destruct Hfirst as [->|(u & _ & _ & _ & ->)]; [reflexivity|].
    apply keys_dict_set. exact Hcol.
  - intros item v Hcol. split; [apply keys_dict_set|apply dict_set_cells]; exact Hcol.
  - intros item v k Hk. apply dict_get_set_other. exact Hk.
Qed.

Lemma process_xero_export_frame_witness :
  match process_xero_export Demo.browser Demo.str_of_float [Demo.lens; Demo.caliper]
          (world (Demo.on Demo.shop)) with
  | (Ok ((fieldnames, rows), rep), _) =>
      Forall2 (kept_or_repriced Demo.str_of_float (updates rep)) [Demo.lens; Demo.caliper] rows
      /\ length rows = 2
      /\ fieldnames = keys Demo.lens
  | (Raise _, _) => False
  end.
Proof.
  destruct (process_xero_export Demo.browser Demo.str_of_float [Demo.lens; Demo.caliper]
              (world (Demo.on Demo.shop))) as [[[[fieldnames rows] rep]|e] w'] eqn:Hrun.
  - destruct (proj1 (proj2 (process_xero_export_frame _ _ Demo.browser Demo.str_of_float))
                _ _ _ _ _ _ Hrun) as (Hrows & Hlen & Hhead).
    split; [exact Hrows|]. split; [exact Hlen|].
    apply (Hhead Demo.lens [Demo.caliper] eq_refl).
    right. right. left. reflexivity.
  - vm_compute in Hrun. discriminate Hrun.
Defined.

Lemma lookup_failures_do_not_abort_witness :
  exists items' rep' s',
    process_items Demo.dead Demo.str_of_float [Demo.lens; Demo.caliper]
      {| updates := []; errors := []; unchanged := [] |} {| driver := false; world := tt |}
    = (Ok (items', rep'), s')
    /\ length items' = 2
    /\ entries rep' = 2.
Proof.
  apply (proj2 (proj2 (proj2 (proj2 (proj2
           (lookup_failures_do_not_abort _ _ Demo.dead Demo.str_of_float)))))).
  repeat constructor; eexists; vm_compute; reflexivity.
Defined.

(** ** The price cascade *)

Section Cascade.

Context {W E : Type}.
Variable drv : Driver W E.

(** The check the Heritage listing loop makes: what it returns is
    strictly positive. *)
Lemma heritage_listing_price_positive (product : E) (selector : string)
      (s s' : scraper W) (price : float) :
  heritage_listing_price drv product selector s = (Ok (Some price), s') ->
  gt price zero = true.
Proof.
  unfold heritage_listing_price, bind, call, lift, ret. intro H.
  repeat (break_match_in H; try discriminate H);
    inversion H; subst; assumption.
Qed.

Lemma heritage_listing_prices_positive (product : E) (selectors : list string) :
  forall (s s' : scraper W) (price : float),
    heritage_listing_prices drv product selectors s = (Ok (Some price), s') ->
    gt price zero = true.
Proof.
  induction selectors as [|selector rest IH]; intros s s' price H.
  - discriminate H.
  - cbn [heritage_listing_prices] in H. unfold bind, try_except in H.
    destruct (heritage_listing_price drv product selector s) as [[[p|]|e] s1] eqn:H1;
      cbn [any_exception ret] in H.
    + inversion H. subst. exact (heritage_listing_price_positive _ _ _ _ _ H1).
    + exact (IH _ _ _ H).
    + exact (IH _ _ _ H).
Qed.

End Cascade.

(** C2 fails on the code.  JustKampers returns the price attribute as it
    parses, here zero; Heritage returns what its product page shows, here
    zero; the Heritage listing, which does check, skips a zero and goes on
    to the next selector. *)
Theorem nonpositive_price_is_returned :
  fst (search_justkampers Demo.browser "J21066" (Demo.on Demo.jk_free)) = Ok (Some zero)
  /\ fst (search_heritage Demo.browser "A1002" (Demo.on Demo.heritage_free)) = Ok (Some zero)
  /\ gt zero zero = false
  /\ fst (search_heritage Demo.browser "A1002" (Demo.on Demo.heritage_zero_then_price))
     = Ok (Some (of_int 15)).
Proof. repeat split. Qed.

(** ** Identity matching *)



Section Matching.

Context {W E : Type}.
Variable drv : Driver W E.

(** A product whose displayed SKU does not match, or cannot be read, is
    passed over. *)
Lemma jk_products_pass (norm : string) (product : E) (rest : list E) (s s1 : scraper W) :
  (exists sku, jk_displayed_sku drv product s = (Ok sku, s1) /\ jk_sku_matches sku norm = false)
  \/ (exists e, jk_displayed_sku drv product s = (Raise e, s1)) ->
  jk_products drv norm (product :: rest) s = jk_products drv norm rest s1.
Proof.
  intro H. cbn [jk_products]. unfold bind at 1. unfold try_except, jk_check_product.
  unfold bind at 1. destruct H as [(sku & Hread & Hno)|(e & Hread)]; rewrite Hread.
  - rewrite Hno. reflexivity.
  - reflexivity.
Qed.




(** The first product that matches decides. *)
Lemma jk_first_match_decides (norm : string) (before after : list E) (product : E)
      (s s1 s2 s3 : scraper W) (sku : string) (r : option float) :
  none_match (jk_displayed_sku drv) (fun sku => jk_sku_matches sku norm) before s s1 ->
  jk_displayed_sku drv product s1 = (Ok sku, s2) ->
  jk_sku_matches sku norm = true ->
  jk_extract_price drv product s2 = (Ok r, s3) ->
  jk_products drv norm (before ++ product :: after)%list s = (Ok r, s3).
Proof.
  intros Hbefore Hread Hyes Hprice.
  induction Hbefore as [s|p rest s s0 s1 k Hr Hno _ IH|p rest s s0 s1 e Hr _ IH].
  - cbn [app jk_products]. unfold bind at 1. unfold try_except, jk_check_product.
    unfold bind at 1. rewrite Hread, Hyes. unfold bind. rewrite Hprice. reflexivity.
  - cbn [app]. rewrite (jk_products_pass norm p _ s s0); [exact (IH Hread)|]. left. eauto.
  - cbn [app]. rewrite (jk_products_pass norm p _ s s0); [exact (IH Hread)|]. right. eauto.
Qed.






End Matching.




(* ================================================================= *)
(** * Further properties *)

(** ** What [strip] and [rstrip] leave *)

Lemma rstrip_by_empty_iff (p : ascii -> bool) (s : string) :
  rstrip_by p s = "" <-> all_chars p s = true.
Proof.
  induction s as [|c rest IH]; cbn [rstrip_by all_chars]; [tauto|].
  destruct (rstrip_by p rest) as [|k kept].
  - destruct (p c); cbn [andb].
    + split; [intros _; apply IH; reflexivity|reflexivity].
    + split; discriminate.
  - split; [discriminate|]. intro H. apply andb_true_iff in H as [_ H].
    apply IH in H. discriminate H.
Qed.

Lemma rstrip_by_last (p : ascii -> bool) (s : string) (c : ascii) :
  last_char (rstrip_by p s) = Some c -> p c = false.
Proof.
  induction s as [|a rest IH]; cbn [rstrip_by]; [discriminate|].
  destruct (rstrip_by p rest) as [|k kept].
  - destruct (p a) eqn:Ha; cbn [last_char]; [discriminate|].
    intro H. inversion H. subst. exact Ha.
  - intro H. apply IH. exact H.
Qed.

Lemma rstrip_by_first (p : ascii -> bool) (s : string) (c : ascii) :
  first_char (rstrip_by p s) = Some c -> first_char s = Some c.
Proof.
  destruct s as [|a rest]; cbn [rstrip_by]; [discriminate|].
  destruct (rstrip_by p rest); [destruct (p a)|]; cbn [first_char]; congruence.
Qed.

Lemma rstrip_by_any (q p : ascii -> bool) (s : string) :
  any_char q (rstrip_by p s) = true -> any_char q s = true.
Proof.
  induction s as [|a rest IH]; cbn [rstrip_by any_char]; [discriminate|].
  destruct (rstrip_by p rest) as [|k kept].
  - destruct (p a); cbn [any_char]; [discriminate|].
    rewrite orb_false_r. intro H. rewrite H. reflexivity.
  - change (any_char q (String a (String k kept)))
      with (q a || any_char q (String k kept)).
    intro H. apply orb_true_iff in H as [H|H]; apply orb_true_iff; auto.
Qed.

Lemma rstrip_by_idempotent (p : ascii -> bool) (s : string) :
  rstrip_by p (rstrip_by p s) = rstrip_by p s.
Proof.
  induction s as [|a rest IH]; [reflexivity|]. cbn [rstrip_by].
  destruct (rstrip_by p rest) as [|k kept] eqn:Hr.
  - destruct (p a) eqn:Ha; [reflexivity|]. cbn [rstrip_by]. rewrite Ha. reflexivity.
  - change (rstrip_by p (String a (String k kept)))
      with (match rstrip_by p (String k kept) with
            | EmptyString => if p a then EmptyString else String a EmptyString
            | kept' => String a kept'
            end).
    rewrite IH. reflexivity.
Qed.

Lemma lstrip_by_first (p : ascii -> bool) (s : string) (c : ascii) :
  first_char (lstrip_by p s) = Some c -> p c = false.
Proof.
  induction s as [|a rest IH]; cbn [lstrip_by]; [discriminate|].
  destruct (p a) eqn:Ha; [exact IH|]. cbn [first_char]. intro H. inversion H. subst. exact Ha.
Qed.

Lemma lstrip_by_any (q p : ascii -> bool) (s : string) :
  any_char q (lstrip_by p s) = true -> any_char q s = true.
Proof.
  induction s as [|a rest IH]; cbn [lstrip_by]; [discriminate|].
  destruct (p a); [|exact (fun H => H)].
  intro H. cbn [any_char]. rewrite (IH H). apply orb_true_r.
Qed.

Lemma lstrip_by_fixed (p : ascii -> bool) (s : string) :
  (forall c, first_char s = Some c -> p c = false) -> lstrip_by p s = s.
Proof.
  destruct s as [|a rest]; [reflexivity|]. intro H. cbn [lstrip_by].
  rewrite (H a eq_refl). reflexivity.
Qed.

Lemma strip_first (s : string) (c : ascii) :
  first_char (strip s) = Some c -> isspace c = false.
Proof.
  unfold strip. intro H. apply rstrip_by_first in H. exact (lstrip_by_first _ _ _ H).
Qed.

Lemma strip_last (s : string) (c : ascii) :
  last_char (strip s) = Some c -> isspace c = false.
Proof. unfold strip. apply rstrip_by_last. Qed.

Lemma strip_any (q : ascii -> bool) (s : string) :
  any_char q (strip s) = true -> any_char q s = true.
Proof.
  unfold strip. intro H. apply rstrip_by_any in H. exact (lstrip_by_any _ _ _ H).
Qed.

Lemma strip_idempotent (s : string) : strip (strip s) = strip s.
Proof.
  unfold strip at 1. rewrite lstrip_by_fixed.
  - unfold strip. apply rstrip_by_idempotent.
  - intros c H. exact (strip_first s c H).
Qed.

Lemma any_char_false_of_not_true (q : ascii -> bool) (s t : string) :
  (any_char q s = true -> any_char q t = true) ->
  any_char q t = false -> any_char q s = false.
Proof.
  intros H Ht. destruct (any_char q s); [|reflexivity].
  rewrite (H eq_refl) in Ht. discriminate Ht.
Qed.

Lemma rsplit_last_some (sep : ascii) (s head tail : string) :
  rsplit_last sep s = Some (head, tail) ->
  s = head ++ String sep tail
  /\ any_char (fun c => Ascii.eqb c sep) tail = false.
Proof.
  revert head. induction s as [|c rest IH]; intro head; cbn [rsplit_last]; [discriminate|].
  destruct (rsplit_last sep rest) as [[b a]|] eqn:Hr.
  - intro H. inversion H. subst. destruct (IH b eq_refl) as [-> Hno].
    split; [reflexivity|exact Hno].
  - destruct (Ascii.eqb c sep) eqn:Hc; [|discriminate].
    intro H. inversion H. subst. apply Ascii.eqb_eq in Hc. subst c.
    split; [reflexivity|].
    clear IH H. induction tail as [|a rest IH]; [reflexivity|].
    cbn [rsplit_last] in Hr. cbn [any_char].
    destruct (rsplit_last sep rest) as [[b a']|]; [discriminate|].
    destruct (Ascii.eqb a sep); [discriminate|]. exact (IH eq_refl).
Qed.

Lemma rsplit_last_none (sep : ascii) (s : string) :
  rsplit_last sep s = None -> any_char (fun c => Ascii.eqb c sep) s = false.
Proof.
  induction s as [|c rest IH]; cbn [rsplit_last any_char]; [reflexivity|].
  destruct (rsplit_last sep rest) as [[b a]|]; [discriminate|].
  destruct (Ascii.eqb c sep); [discriminate|]. intros _. exact (IH eq_refl).
Qed.

(** ** The identifier [extract_sku_from_name] hands on *)

(** X1.  Whatever the item name, the extracted SKU contains no space, does
    not end with a slash and does not start with whitespace. *)
Theorem extracted_sku_shape :
  forall item_name : string,
    any_char is_space_char (snd (extract_sku_from_name item_name)) = false
    /\ last_char (snd (extract_sku_from_name item_name)) <> Some "/"%char
    /\ match first_char (snd (extract_sku_from_name item_name)) with
       | Some c => isspace c = false
       | None => True
       end.
Proof.
  intro item_name. unfold extract_sku_from_name, rsplit1.
  destruct (rsplit_last " " item_name) as [[description tail]|] eqn:Hsplit; cbn [snd].
  - destruct (rsplit_last_some _ _ _ _ Hsplit) as [_ Hno].
    split; [|split].
    + apply (any_char_false_of_not_true _ _ tail); [|exact Hno].
      intro H. unfold rstrip_slash in H. apply rstrip_by_any in H.
      exact (strip_any _ _ H).
    + intro H. unfold rstrip_slash in H. apply rstrip_by_last in H. discriminate H.
    + destruct (first_char (rstrip_slash (strip tail))) as [c|] eqn:Hc; [|exact I].
      unfold rstrip_slash in Hc. apply rstrip_by_first in Hc. exact (strip_first _ _ Hc).
  - repeat split. discriminate.
Qed.

(** X2.  The extracted SKU is empty exactly when the name has no space, or
    the text after its last space is, once trimmed, nothing but slashes. *)
Theorem extracted_sku_empty_iff :
  forall item_name : string,
    snd (extract_sku_from_name item_name) = "" <->
    (any_char is_space_char item_name = false
     \/ exists description tail,
          item_name = description ++ String " " tail
          /\ any_char is_space_char tail = false
          /\ all_chars is_slash (strip tail) = true).
Proof.
  intro item_name. split.
  - unfold extract_sku_from_name, rsplit1.
    destruct (rsplit_last " " item_name) as [[description tail]|] eqn:Hsplit; cbn [snd].
    + intro H. right. exists description, tail.
      destruct (rsplit_last_some _ _ _ _ Hsplit) as [Heq Hno].
      split; [exact Heq|]. split; [exact Hno|].
      apply rstrip_by_empty_iff. exact H.
    + intros _. left. exact (rsplit_last_none _ _ Hsplit).
  - intros [H|(description & tail & -> & Hno & Hall)].
    + rewrite (extract_sku_no_space _ H). reflexivity.
    + unfold extract_sku_from_name, rsplit1.
      rewrite (rsplit_last_at_last " " description tail Hno). cbn [snd].
      apply rstrip_by_empty_iff. exact Hall.
Qed.

(** X3.  Whitespace around the SKU makes no difference to either adapter. *)
Theorem adapters_ignore_surrounding_whitespace :
  forall (W E : Type) (drv : Driver W E) (sku : string) (s : scraper W),
    search_justkampers drv (strip sku) s = search_justkampers drv sku s
    /\ search_heritage drv (strip sku) s = search_heritage drv sku s.
Proof.
  intros W E drv sku s.
  unfold search_justkampers, search_justkampers_body, search_heritage, search_heritage_body.
  rewrite strip_idempotent. split; reflexivity.
Qed.

(** ** Prices read from a text are never negative *)

Local Open Scope Z_scope.

Lemma shr_1_nonneg (mrs : shr_record) : 0 <= shr_m mrs -> 0 <= shr_m (shr_1 mrs).
Proof.
  destruct mrs as [m r t]. cbn [shr_m]. intro H.
  destruct m as [|p|p]; [| |lia]; [|destruct p]; cbn; lia.
Qed.

Lemma iter_shr_1_nonneg (p : positive) :
  forall mrs : shr_record, 0 <= shr_m mrs -> 0 <= shr_m (iter_pos shr_1 p mrs).
Proof.
  induction p as [p IH|p IH|]; intros mrs H; cbn [iter_pos].
  - apply IH, IH, shr_1_nonneg, H.
  - apply IH, IH, H.
  - apply shr_1_nonneg, H.
Qed.

Lemma shr_fexp_nonneg (m e : Z) (l : location) :
  0 <= m -> 0 <= shr_m (fst (shr_fexp prec emax m e l)).
Proof.
  intro H. unfold shr_fexp, shr.
  assert (H0 : 0 <= shr_m (shr_record_of_loc m l)).
  { destruct l as [|[]]; exact H. }
  destruct (fexp prec emax (Zdigits2 m + e) - e) as [|p|p]; cbn [fst]; try exact H0.
  apply iter_shr_1_nonneg, H0.
Qed.

Lemma round_nearest_even_nonneg (m : Z) (l : location) :
  0 <= m -> 0 <= round_nearest_even m l.
Proof.
  intro H. unfold round_nearest_even.
  destruct l as [|[]]; try destruct (Z.even m); lia.
Qed.

Lemma binary_round_aux_nonneg (m e : Z) (l : location) :
  0 <= m -> is_nonneg (binary_round_aux prec emax false m e l) = true.
Proof.
  intro H. unfold binary_round_aux.
  pose proof (shr_fexp_nonneg m e l H) as H1.
  destruct (shr_fexp prec emax m e l) as [mrs' e']. cbn [fst] in H1.
  pose proof (shr_fexp_nonneg _ e' loc_Exact
                (round_nearest_even_nonneg _ (loc_of_shr_record mrs') H1)) as H2.
  destruct (shr_fexp prec emax (round_nearest_even (shr_m mrs') (loc_of_shr_record mrs'))
              e' loc_Exact) as [mrs'' e'']. cbn [fst] in H2.
  destruct (shr_m mrs'') as [|p|p]; [reflexivity| |lia].
  destruct (e'' <=? emax - prec); reflexivity.
Qed.

Lemma of_ratio_nonneg (num den : Z) :
  0 <= num -> 0 < den -> is_nonneg (of_ratio false num den) = true.
Proof.
  intros Hn Hd. unfold of_ratio. destruct (num =? 0); [reflexivity|].
  unfold SFdiv_core_binary.
  set (e' := Z.min _ _). set (m' := match 0 - 0 - e' with Z.pos _ => _ | _ => _ end).
  assert (Hm : 0 <= m').
  { subst m'. destruct (0 - 0 - e'); try lia. apply Z.shiftl_nonneg. exact Hn. }
  pose proof (Z.div_pos m' den Hm Hd) as Hq. unfold Z.div in Hq.
  destruct (Z.div_eucl m' den) as [q r].
  apply binary_round_aux_nonneg. exact Hq.
Qed.

Lemma of_decimal_nonneg (m e : Z) : 0 <= m -> is_nonneg (of_decimal false m e) = true.
Proof.
  intro H. unfold of_decimal. destruct (0 <=? e) eqn:He.
  - apply of_ratio_nonneg; [|lia]. apply Z.mul_nonneg_nonneg; [exact H|].
    apply Z.pow_nonneg. lia.
  - apply of_ratio_nonneg; [exact H|]. apply Z.pow_pos_nonneg; lia.
Qed.

Lemma digits_val_nonneg (s : string) : forall acc, 0 <= acc -> 0 <= digits_val acc s.
Proof.
  induction s as [|c rest IH]; intros acc H; cbn [digits_val]; [exact H|].
  apply IH. unfold digit_val. lia.
Qed.

Local Close Scope Z_scope.

Lemma all_chars_app (p : ascii -> bool) (s t : string) :
  all_chars p (s ++ t) = all_chars p s && all_chars p t.
Proof.
  induction s as [|c rest IH]; cbn [append all_chars]; [reflexivity|].
  rewrite IH. apply andb_assoc.
Qed.

Lemma all_chars_impl (p q : ascii -> bool) (s : string) :
  (forall c, p c = true -> q c = true) -> all_chars p s = true -> all_chars q s = true.
Proof.
  intro Hpq. induction s as [|c rest IH]; cbn [all_chars]; [reflexivity|].
  intro H. apply andb_true_iff in H as [Hc Hr]. rewrite (Hpq c Hc), (IH Hr). reflexivity.
Qed.

Lemma all_chars_take_while (p : ascii -> bool) (s : string) :
  all_chars p (take_while p s) = true.
Proof.
  induction s as [|c rest IH]; cbn [take_while]; [reflexivity|].
  destruct (p c) eqn:Hc; [|reflexivity]. cbn [all_chars]. rewrite Hc, IH. reflexivity.
Qed.

Lemma all_chars_lstrip_by (p q : ascii -> bool) (s : string) :
  all_chars p s = true -> all_chars p (lstrip_by q s) = true.
Proof.
  induction s as [|c rest IH]; cbn [lstrip_by all_chars]; [reflexivity|].
  intro H. destruct (q c); [|exact H].
  apply andb_true_iff in H as [_ H]. exact (IH H).
Qed.

Lemma all_chars_rstrip_by (p q : ascii -> bool) (s : string) :
  all_chars p s = true -> all_chars p (rstrip_by q s) = true.
Proof.
  induction s as [|c rest IH]; cbn [rstrip_by all_chars]; [reflexivity|].
  intro H. apply andb_true_iff in H as [Hc Hr]. specialize (IH Hr).
  destruct (rstrip_by q rest) as [|k kept].
  - destruct (q c); [reflexivity|]. cbn [all_chars]. rewrite Hc. reflexivity.
  - change (all_chars p (String c (String k kept)))
      with (p c && all_chars p (String k kept)).
    rewrite Hc, IH. reflexivity.
Qed.

Lemma all_chars_strip (p : ascii -> bool) (s : string) :
  all_chars p s = true -> all_chars p (strip s) = true.
Proof. intro H. unfold strip. apply all_chars_rstrip_by, all_chars_lstrip_by, H. Qed.

(** What the regular expression matches is made of digits, commas and
    dots; without its commas, of digits and dots. *)
Lemma match_price_here_chars (s : string) :
  all_chars digit_comma_or_dot (match_price_here s) = true.
Proof.
  assert (Hhead : all_chars digit_comma_or_dot (take_while digit_or_comma s) = true).
  { apply (all_chars_impl digit_or_comma); [|apply all_chars_take_while].
    intros c Hc. unfold digit_comma_or_dot. rewrite Hc. reflexivity. }
  unfold match_price_here.
  destruct (drop_while digit_or_comma s) as [|c rest]; [exact Hhead|].
  destruct (Ascii.eqb c ".") eqn:Hc.
  - apply Ascii.eqb_eq in Hc. subst c.
    rewrite !all_chars_app, Hhead. cbn [all_chars andb].
    apply (all_chars_impl isdigit); [|apply all_chars_take_while].
    intros c Hc. unfold digit_comma_or_dot, digit_or_comma. rewrite Hc. reflexivity.
  - destruct c as [[] [] [] [] [] [] [] []]; try exact Hhead; discriminate Hc.
Qed.

Lemma search_price_chars (text price_match : string) :
  search_price text = Some price_match ->
  all_chars digit_comma_or_dot price_match = true.
Proof.
  induction text as [|c rest IH]; cbn [search_price]; [discriminate|].
  destruct (digit_or_comma c); [|exact IH].
  intro H. inversion H. apply match_price_here_chars.
Qed.

Lemma remove_commas_chars (s : string) :
  all_chars digit_comma_or_dot s = true ->
  all_chars digit_or_dot (remove_char "," s) = true.
Proof.
  induction s as [|c rest IH]; cbn [all_chars remove_char]; [reflexivity|].
  intro H. apply andb_true_iff in H as [Hc Hr]. specialize (IH Hr).
  destruct (Ascii.eqb c ",") eqn:Hcomma; [exact IH|].
  cbn [all_chars]. rewrite IH, andb_true_r.
  unfold digit_comma_or_dot, digit_or_comma in Hc. rewrite Hcomma, orb_false_r in Hc.
  exact Hc.
Qed.

Lemma digit_or_dot_cases (c : ascii) :
  digit_or_dot c = true ->
  c = "0"%char \/ c = "1"%char \/ c = "2"%char \/ c = "3"%char \/ c = "4"%char
  \/ c = "5"%char \/ c = "6"%char \/ c = "7"%char \/ c = "8"%char \/ c = "9"%char
  \/ c = "."%char.
Proof.
  destruct c as [[] [] [] [] [] [] [] []]; intro H; try discriminate H; tauto.
Qed.

Ltac each_digit_or_dot H :=
  apply digit_or_dot_cases in H;
  repeat (destruct H as [H|H]); subst.

(** Digits and dots hold no underscore: [drop_underscores] gives them back. *)
Lemma drop_underscores_plain (s : string) :
  all_chars digit_or_dot s = true ->
  forall prev, (prev = None \/ exists c, prev = Some c /\ digit_or_dot c = true) ->
               drop_underscores prev s = Some s.
Proof.
  induction s as [|c rest IH]; intros H prev Hprev.
  - destruct Hprev as [->|(p & -> & Hp)]; [reflexivity|].
    each_digit_or_dot Hp; reflexivity.
  - cbn [all_chars] in H. apply andb_true_iff in H as [Hc Hr].
    assert (Hnext : drop_underscores (Some c) rest = Some rest).
    { apply (IH Hr). right. exists c. split; [reflexivity|exact Hc]. }
    destruct Hprev as [->|(p & -> & Hp)].
    + each_digit_or_dot Hc; cbn [drop_underscores Ascii.eqb Bool.eqb];
        rewrite Hnext; reflexivity.
    + each_digit_or_dot Hp; each_digit_or_dot Hc;
        cbn [drop_underscores Ascii.eqb Bool.eqb]; rewrite Hnext; reflexivity.
Qed.

Lemma read_sign_plain (s : string) :
  all_chars digit_or_dot s = true -> read_sign s = (false, s).
Proof.
  destruct s as [|c rest]; [reflexivity|]. cbn [all_chars]. intro H.
  apply andb_true_iff in H as [Hc _]. each_digit_or_dot Hc; reflexivity.
Qed.

Lemma parse_inf_nan_plain (neg : bool) (s : string) :
  all_chars digit_or_dot s = true -> parse_inf_nan neg s = None.
Proof.
  destruct s as [|c rest]; [reflexivity|]. cbn [all_chars]. intro H.
  apply andb_true_iff in H as [Hc _]. each_digit_or_dot Hc; reflexivity.
Qed.

Lemma parse_decimal_nonneg (s : string) (x : float) :
  parse_decimal false s = Some x -> is_nonneg x = true.
Proof.
  unfold parse_decimal. intro H.
  repeat (break_match_in H; try discriminate H);
    inversion H; subst; apply of_decimal_nonneg, digits_val_nonneg; lia.
Qed.

(** [float(s)] of digits and dots: a [ValueError] or a float that is not
    negative. *)
Lemma of_string_digits_nonneg (s : string) (x : float) :
  all_chars digit_or_dot s = true -> of_string s = Ok x -> is_nonneg x = true.
Proof.
  intros Hs H. unfold of_string in H.
  pose proof (all_chars_strip _ _ Hs) as Hstrip.
  rewrite (drop_underscores_plain _ Hstrip None (or_introl eq_refl)) in H.
  rewrite (read_sign_plain _ Hstrip) in H.
  rewrite (parse_inf_nan_plain false _ Hstrip) in H.
  destruct (parse_decimal false (strip s)) as [y|] eqn:Hy; [|discriminate H].
  inversion H. subst. exact (parse_decimal_nonneg _ _ Hy).
Qed.

Lemma price_of_text_nonneg (text price_match : string) (price : float) :
  search_price text = Some price_match ->
  of_string (remove_char "," price_match) = Ok price ->
  is_nonneg price = true.
Proof.
  intros Hm Hp. apply (of_string_digits_nonneg _ _ (remove_commas_chars _ (search_price_chars _ _ Hm)) Hp).
Qed.

Lemma yields_ret {W A} (P : A -> Prop) (a : A) : P a -> yields (W := W) P (ret a).
Proof. intros H s a' s' E. inversion E. subst. exact H. Qed.

Lemma yields_bind {W A B} (Q : A -> Prop) (P : B -> Prop) (m : M W A) (k : A -> M W B) :
  yields Q m -> (forall a, Q a -> yields P (k a)) -> yields P (bind m k).
Proof.
  intros Hm Hk s b s' E. unfold bind in E.
  destruct (m s) as [[a|e] s1] eqn:Em; [|discriminate E].
  exact (Hk a (Hm _ _ _ Em) _ _ _ E).
Qed.

Lemma yields_anything {W A} (m : M W A) : yields (fun _ => True) m.
Proof. intros s a s' _. exact I. Qed.

Lemma yields_try_except {W A} (P : A -> Prop) (m h : M W A) (catches : exn -> bool) :
  yields P m -> yields P h -> yields P (try_except m catches h).
Proof.
  intros Hm Hh s a s' E. unfold try_except in E.
  destruct (m s) as [[a0|e] s1] eqn:Em.
  - inversion E. subst. exact (Hm _ _ _ Em).
  - destruct (catches e); [exact (Hh _ _ _ E)|discriminate E].
Qed.

Lemma gt_zero_is_nonneg (x : float) : gt x zero = true -> is_nonneg x = true.
Proof.
  destruct x as [b|b| |b m e]; cbv [gt zero SFltb SFcompare is_nonneg];
    try destruct b; intro H; try reflexivity; discriminate H.
Qed.

Section PricesRead.

Context {W E : Type}.
Variable drv : Driver W E.

Lemma page_price_nonneg (selector : string) :
  yields nonneg_if_present (page_price drv selector).
Proof.
  intros s r s' H. unfold page_price, bind, call, lift, ret in H.
  repeat (break_match_in H; try discriminate H); inversion H; subst; cbn; try exact I.
  eapply price_of_text_nonneg; eassumption.
Qed.

Lemma page_prices_nonneg (selectors : list string) :
  yields nonneg_if_present (page_prices drv selectors).
Proof.
  induction selectors as [|selector rest IH]; cbn [page_prices].
  - apply yields_ret. exact I.
  - apply (yields_bind nonneg_if_present).
    + apply yields_try_except; [apply page_price_nonneg|apply yields_ret; exact I].
    + intros [price|] Hp; [apply yields_ret; exact Hp|exact IH].
Qed.

Lemma jk_product_page_nonneg (product : E) :
  yields nonneg_if_present (jk_product_page drv product).
Proof.
  unfold jk_product_page. apply yields_try_except; [|apply yields_ret; exact I].
  do 3 (apply (yields_bind (fun _ => True)); [apply yields_anything|intros ? _]).
  apply page_prices_nonneg.
Qed.

Lemma heritage_listing_prices_nonneg (product : E) (selectors : list string) :
  yields nonneg_if_present (heritage_listing_prices drv product selectors).
Proof.
  intros s [price|] s' H; [|exact I].
  apply gt_zero_is_nonneg. exact (heritage_listing_prices_positive drv _ _ _ _ _ H).
Qed.

Lemma heritage_extract_price_nonneg (product : E) :
  yields nonneg_if_present (heritage_extract_price drv product).
Proof.
  unfold heritage_extract_price. apply (yields_bind nonneg_if_present).
  - apply heritage_listing_prices_nonneg.
  - intros [price|] Hp; [apply yields_ret; exact Hp|].
    do 3 (apply (yields_bind (fun _ => True)); [apply yields_anything|intros ? _]).
    apply page_prices_nonneg.
Qed.

Lemma heritage_products_nonneg (search_sku norm : string) (products : list E) :
  yields nonneg_if_present (heritage_products drv search_sku norm products).
Proof.
  induction products as [|product rest IH]; cbn [heritage_products].
  - apply yields_ret. exact I.
  - apply (yields_bind nonneg_if_present).
    + apply yields_try_except; [|apply yields_ret; exact I].
      unfold heritage_check_product.
      apply (yields_bind (fun _ => True)); [apply yields_anything|intros sku _].
      destruct (heritage_sku_matches sku norm);
        [apply heritage_extract_price_nonneg|apply yields_ret; exact I].
    + intros [price|] Hp; [apply yields_ret; exact Hp|exact IH].
Qed.

Lemma search_heritage_nonneg (sku : string) :
  yields nonneg_if_present (search_heritage drv sku).
Proof.
  unfold search_heritage. apply yields_try_except; [|apply yields_ret; exact I].
  unfold search_heritage_body.
  apply (yields_bind (fun _ => True)); [apply yields_anything|intros [products|] _].
  - apply heritage_products_nonneg.
  - apply yields_ret. exact I.
Qed.

End PricesRead.

(** X4.  A price taken from a product page, the last resort of both
    adapters, is never negative and never a NaN: the pattern searched for
    holds no sign. *)
Theorem product_page_price_not_negative :
  forall (W E : Type) (drv : Driver W E) (s s' : scraper W) (price : float),
    (forall selectors,
        page_prices drv selectors s = (Ok (Some price), s') -> is_nonneg price = true)
    /\ (forall product,
           jk_product_page drv product s = (Ok (Some price), s') -> is_nonneg price = true).
Proof.
  intros W E drv s s' price. split.
  - intros selectors H. exact (page_prices_nonneg drv selectors _ _ _ H).
  - intros product H. exact (jk_product_page_nonneg drv product _ _ _ H).
Qed.

(** X5.  Whatever the pages hold, a price returned by [search_heritage] is
    never negative and never a NaN, and one taken from the listing itself is
    strictly positive. *)
Theorem search_heritage_price_not_negative :
  forall (W E : Type) (drv : Driver W E) (s s' : scraper W) (price : float),
    (forall sku,
        search_heritage drv sku s = (Ok (Some price), s') -> is_nonneg price = true)
    /\ (forall product selectors,
           heritage_listing_prices drv product selectors s = (Ok (Some price), s') ->
           gt price zero = true).
Proof.
  intros W E drv s s' price. split.
  - intros sku H. exact (search_heritage_nonneg drv sku _ _ _ H).
  - intros product selectors H.
    exact (heritage_listing_prices_positive drv _ _ _ _ _ H).
Qed.

Lemma product_page_price_not_negative_witness :
  is_nonneg (of_decimal false 12345 (-1)) = true.
Proof.
  apply (proj1 (product_page_price_not_negative _ _ Demo.browser
                  (Cases.looking_at Cases.product_page)
                  (Cases.looking_at Cases.product_page) (of_decimal false 12345 (-1)))
           (jk_price_selectors)).
  vm_compute. reflexivity.
Defined.

Lemma search_heritage_price_not_negative_witness :
  is_nonneg zero = true.
Proof.
  apply (proj1 (search_heritage_price_not_negative _ _ Demo.browser
                  (Demo.on Demo.heritage_free)
                  (snd (search_heritage Demo.browser "A1002" (Demo.on Demo.heritage_free)))
                  zero)
           "A1002").
  vm_compute. reflexivity.
Defined.

(** ** Comparing a price with itself *)

Lemma sub_self_small (x : float) : gt (fabs (sub x x)) lit_0_01 = false.
Proof.
  destruct x as [b|b| |b m e]; try (destruct b; reflexivity); try reflexivity.
  unfold sub, SFsub. rewrite Z.sub_diag. reflexivity.
Qed.

(** X6.  A looked-up price equal to the current one is never an update,
    whatever float it is (an infinity or a NaN included); so a row whose
    price cell reads back as the price found is left as it is and recorded
    as unchanged. *)
Theorem same_price_is_unchanged :
  forall (W E : Type) (drv : Driver W E) (str_of_float : float -> string),
    (forall price : float, compare_prices price (Some price) = Ok Unchanged)
    /\ (forall item rep s price source s1,
           current_price_of item = Ok price ->
           get_price drv (item_name_of item) s = (Ok (Some price, source), s1) ->
           process_item drv str_of_float item rep s =
           (Ok (item,
                add_unchanged rep
                  {| unc_ItemCode := item_code_of item; unc_ItemName := item_name_of item;
                     unc_Price := price; unc_Source := source |}),
            slept drv 1 s1))
    /\ (forall item price,
           of_string (str_of_float price) = Ok price ->
           current_price_of (dict_set item "SalesUnitPrice" (str_of_float price)) = Ok price).
Proof.
  intros W E drv str_of_float.
  assert (same : forall price, compare_prices price (Some price) = Ok Unchanged).
  { intro price. rewrite compare_prices_present, sub_self_small. reflexivity. }
  split; [exact same|]. split.
  - intros item rep s price source s1 Hcur Hget.
    rewrite (process_item_unfold drv str_of_float item rep s s1 price (Some price) source
               Hcur Hget).
    rewrite sub_self_small. reflexivity.
  - intros item price H. unfold current_price_of. rewrite dict_get_set_same. exact H.
Qed.

Lemma same_price_is_unchanged_witness :
  exists s',
    process_item Demo.browser Demo.str_of_float Cases.lens_repriced
      {| updates := []; errors := []; unchanged := [] |} (Demo.on Demo.shop)
    = (Ok (Cases.lens_repriced,
           add_unchanged {| updates := []; errors := []; unchanged := [] |}
             {| unc_ItemCode := "A1002"; unc_ItemName := "Rear Light Lens A1002";
                unc_Price := of_int 15; unc_Source := "Heritage Parts Centre" |}),
       s').
Proof.
  eexists.
  apply (proj1 (proj2 (same_price_is_unchanged _ _ Demo.browser Demo.str_of_float))
           Cases.lens_repriced _ (Demo.on Demo.shop) (of_int 15) "Heritage Parts Centre").
  - apply (proj2 (proj2 (same_price_is_unchanged _ _ Demo.browser Demo.str_of_float))).
    reflexivity.
  - vm_compute. reflexivity.
Defined.

(** ** What the report holds *)

Section Report.

Context {W E : Type}.
Variable drv : Driver W E.
Variable str_of_float : float -> string.

Lemma get_price_present_source (item_name : string) (s s' : scraper W)
      (price : float) (source : string) :
  get_price drv item_name s = (Ok (Some price, source), s') -> known_source source.
Proof.
  intro H.
  destruct (get_price_cases drv item_name s)
    as [[_ H0]|[(_ & _ & p & s1 & _ & H0)|(_ & _ & p & s1 & _ & H0)]];
    rewrite H0 in H; inversion H; subst; [left|right]; reflexivity.
Qed.

Lemma process_item_report (item : row) (rep : report) (s : scraper W)
      (item' : row) (rep' : report) (s' : scraper W) :
  process_item drv str_of_float item rep s = (Ok (item', rep'), s') ->
  (exists u, rep' = add_update rep u /\ consistent_update u)
  \/ (exists e, rep' = add_error rep e /\ err_Error e = "Price not found")
  \/ (exists n, rep' = add_unchanged rep n /\ known_source (unc_Source n)).
Proof.
  intro H. destruct (process_item_reads_price _ _ _ _ _ _ _ H) as [cur Hcur].
  destruct (get_price_returns drv (item_name_of item) s) as (new_price & source & s1 & Hget).
  rewrite (process_item_unfold drv str_of_float item rep s s1 cur new_price source Hcur Hget) in H.
  destruct new_price as [new|].
  - pose proof (get_price_present_source _ _ _ _ _ Hget) as Hsrc.
    destruct (gt (fabs (sub new cur)) lit_0_01) eqn:Hgt; inversion H; subst.
    + left. eexists. split; [reflexivity|].
      unfold consistent_update. cbn. repeat split; assumption.
    + right. right. eexists. split; [reflexivity|exact Hsrc].
  - inversion H; subst. right. left. eexists. split; reflexivity.
Qed.

Lemma process_items_report (items : list row) :
  forall (rep : report) (s : scraper W) (items' : list row) (rep' : report) (s' : scraper W),
    process_items drv str_of_float items rep s = (Ok (items', rep'), s') ->
    exists us es ns,
      updates rep' = (updates rep ++ us)%list
      /\ errors rep' = (errors rep ++ es)%list
      /\ unchanged rep' = (unchanged rep ++ ns)%list
      /\ Forall consistent_update us
      /\ Forall (fun e => err_Error e = "Price not found") es
      /\ Forall (fun n => known_source (unc_Source n)) ns
      /\ length us + length es + length ns = length items.
Proof.
  induction items as [|item rest IH]; intros rep s items' rep' s' H.
  - cbn in H. inversion H. subst. exists [], [], [].
    rewrite !app_nil_r. repeat split; constructor.
  - destruct (process_items_cons_inv _ _ _ _ _ _ _ _ _ H)
      as (item1 & rep1 & s1 & rest' & H1 & H2 & ->).
    destruct (IH _ _ _ _ _ H2) as (us & es & ns & Hu & He & Hn & Fu & Fe & Fn & Hlen).
    destruct (process_item_report _ _ _ _ _ _ H1)
      as [(u & -> & Hok)|[(e & -> & Hok)|(n & -> & Hok)]];
      cbn [updates errors unchanged add_update add_error add_unchanged] in Hu, He, Hn.
    + exists (u :: us), es, ns. rewrite Hu, He, Hn, <- app_assoc.
      repeat split; try assumption; [constructor; assumption|cbn [length]; lia].
    + exists us, (e :: es), ns. rewrite Hu, He, Hn, <- app_assoc.
      repeat split; try assumption; [constructor; assumption|cbn [length]; lia].
    + exists us, es, (n :: ns). rewrite Hu, He, Hn, <- app_assoc.
      repeat split; try assumption; [constructor; assumption|cbn [length]; lia].
Qed.

End Report.

(** X7.  In the report a completed batch returns, every update carries the
    difference [new - old], larger than [0.01] in absolute value, the
    percentage of that difference and the name of one of the two catalogs;
    every error reads ["Price not found"]; every unchanged entry names a
    catalog; and the three lists together hold one entry per input row. *)
Theorem report_entries_are_consistent :
  forall (W E : Type) (drv : Driver W E) (str_of_float : float -> string)
         (items : list row) (w w' : W) (table : csv_table) (rep : report),
    process_xero_export drv str_of_float items w = (Ok (table, rep), w') ->
    Forall consistent_update (updates rep)
    /\ Forall (fun e => err_Error e = "Price not found") (errors rep)
    /\ Forall (fun n => known_source (unc_Source n)) (unchanged rep)
    /\ length (updates rep) + length (errors rep) + length (unchanged rep) = length items.
Proof.
  intros W E drv str_of_float items w w' [fieldnames rows] rep H.
  destruct (process_xero_export_inv _ _ _ _ _ _ _ _ H) as (s' & Hrun & _).
  destruct (process_items_report _ _ _ _ _ _ _ _ Hrun)
    as (us & es & ns & Hu & He & Hn & Fu & Fe & Fn & Hlen).
  cbn [updates errors unchanged app] in Hu, He, Hn. rewrite Hu, He, Hn.
  repeat split; assumption.
Qed.

Lemma report_entries_are_consistent_witness :
  match process_xero_export Demo.browser Demo.str_of_float [Demo.lens; Demo.caliper]
          (world (Demo.on Demo.shop)) with
  | (Ok (_, rep), _) =>
      Forall consistent_update (updates rep)
      /\ Forall (fun e => err_Error e = "Price not found") (errors rep)
      /\ Forall (fun n => known_source (unc_Source n)) (unchanged rep)
      /\ length (updates rep) + length (errors rep) + length (unchanged rep) = 2
  | (Raise _, _) => False
  end.
Proof.
  destruct (process_xero_export Demo.browser Demo.str_of_float [Demo.lens; Demo.caliper]
              (world (Demo.on Demo.shop))) as [[[table rep]|e] w'] eqn:Hrun.
  - exact (report_entries_are_consistent _ _ _ _ _ _ _ _ _ Hrun).
  - vm_compute in Hrun. discriminate Hrun.
Defined.

(** ** Batches that do not complete *)

Section Aborts.

Context {W E : Type}.
Variable drv : Driver W E.
Variable str_of_float : float -> string.


End Aborts.



(** ** The driver during lookups *)

Lemma stays_up_ret {W A} (a : A) : stays_up (W := W) (ret a).
Proof. intros s r s' H Hup. inversion H. subst. exact Hup. Qed.

Lemma stays_up_raise {W A} (e : exn) : stays_up (W := W) (A := A) (raise e).
Proof. intros s r s' H Hup. inversion H. subst. exact Hup. Qed.

Lemma stays_up_lift {W A} (x : result A) : stays_up (W := W) (lift x).
Proof. intros s r s' H Hup. inversion H. subst. exact Hup. Qed.

Lemma stays_up_call {W A} (f : W -> result A * W) : stays_up (call f).
Proof.
  intros s r s' H Hup. unfold call in H. destruct (f (world s)) as [x w].
  inversion H. subst. exact Hup.
Qed.

Lemma stays_up_bind {W A B} (m : M W A) (k : A -> M W B) :
  stays_up m -> (forall a, stays_up (k a)) -> stays_up (bind m k).
Proof.
  intros Hm Hk s r s' H Hup. unfold bind in H.
  destruct (m s) as [[a|e] s1] eqn:Em.
  - exact (Hk a _ _ _ H (Hm _ _ _ Em Hup)).
  - inversion H. subst. exact (Hm _ _ _ Em Hup).
Qed.

Lemma stays_up_try_except {W A} (m h : M W A) (catches : exn -> bool) :
  stays_up m -> stays_up h -> stays_up (try_except m catches h).
Proof.
  intros Hm Hh s r s' H Hup. unfold try_except in H.
  destruct (m s) as [[a|e] s1] eqn:Em.
  - inversion H. subst. exact (Hm _ _ _ Em Hup).
  - destruct (catches e).
    + exact (Hh _ _ _ H (Hm _ _ _ Em Hup)).
    + inversion H. subst. exact (Hm _ _ _ Em Hup).
Qed.

Create HintDb stays_up.

Ltac stays_step :=
  first
    [ solve [auto with stays_up]
    | apply stays_up_ret
    | apply stays_up_raise
    | apply stays_up_lift
    | apply stays_up_call
    | apply stays_up_try_except
    | apply stays_up_bind; [|intro]
    | match goal with
      | |- stays_up (match ?x with _ => _ end) => destruct x
      end ].

Ltac stays := repeat stays_step.

Section DriverStaysUp.

Context {W E : Type}.
Variable drv : Driver W E.
Variable str_of_float : float -> string.

Lemma stays_up_time_sleep (n : nat) : stays_up (time_sleep drv n).
Proof. intros s r s' H Hup. inversion H. subst. exact Hup. Qed.

Lemma stays_up_start_driver : stays_up (start_driver drv).
Proof.
  intros s r s' H Hup. unfold start_driver in H. rewrite Hup in H.
  inversion H. subst. exact Hup.
Qed.

Hint Resolve stays_up_time_sleep stays_up_start_driver : stays_up.

Lemma stays_up_jk_product_sku (labels : list E) : stays_up (jk_product_sku drv labels).
Proof. induction labels as [|label rest IH]; cbn [jk_product_sku]; stays. Qed.

Lemma stays_up_jk_listing_prices (product : E) (selectors : list string) :
  stays_up (jk_listing_prices drv product selectors).
Proof.
  induction selectors as [|selector rest IH]; cbn [jk_listing_prices]; [stays|].
  apply stays_up_bind; [unfold jk_listing_price; stays|intros [p|]; stays].
Qed.

Lemma stays_up_page_prices (selectors : list string) : stays_up (page_prices drv selectors).
Proof.
  induction selectors as [|selector rest IH]; cbn [page_prices]; [stays|].
  apply stays_up_bind; [unfold page_price; stays|intros [p|]; stays].
Qed.

Hint Resolve stays_up_jk_product_sku stays_up_jk_listing_prices stays_up_page_prices
  : stays_up.

Lemma stays_up_jk_check_product (norm : string) (product : E) :
  stays_up (jk_check_product drv norm product).
Proof.
  unfold jk_check_product, jk_displayed_sku, jk_extract_price, jk_product_page. stays.
Qed.

Hint Resolve stays_up_jk_check_product : stays_up.

Lemma stays_up_jk_products (norm : string) (products : list E) :
  stays_up (jk_products drv norm products).
Proof. induction products as [|product rest IH]; cbn [jk_products]; stays. Qed.

Hint Resolve stays_up_jk_products : stays_up.

Lemma stays_up_search_justkampers (sku : string) : stays_up (search_justkampers drv sku).
Proof.
  unfold search_justkampers, search_justkampers_body, jk_results_page. stays.
Qed.

Lemma stays_up_heritage_sku_text (product : E) (selectors : list string) :
  forall sku_text, stays_up (heritage_sku_text drv product selectors sku_text).
Proof.
  induction selectors as [|selector rest IH]; intro sku_text; cbn [heritage_sku_text]; stays.
Qed.

Lemma stays_up_heritage_listing_prices (product : E) (selectors : list string) :
  stays_up (heritage_listing_prices drv product selectors).
Proof.
  induction selectors as [|selector rest IH]; cbn [heritage_listing_prices]; [stays|].
  apply stays_up_bind; [unfold heritage_listing_price; stays|intros [p|]; stays].
Qed.

Hint Resolve stays_up_heritage_sku_text stays_up_heritage_listing_prices : stays_up.

Lemma stays_up_heritage_check_product (search_sku norm : string) (product : E) :
  stays_up (heritage_check_product drv search_sku norm product).
Proof.
  unfold heritage_check_product, heritage_product_sku, heritage_title_fallback,
    heritage_extract_price.
  stays.
Qed.

Hint Resolve stays_up_heritage_check_product : stays_up.

Lemma stays_up_heritage_products (search_sku norm : string) (products : list E) :
  stays_up (heritage_products drv search_sku norm products).
Proof. induction products as [|product rest IH]; cbn [heritage_products]; stays. Qed.

Hint Resolve stays_up_heritage_products : stays_up.

Lemma stays_up_search_heritage (sku : string) : stays_up (search_heritage drv sku).
Proof.
  unfold search_heritage, search_heritage_body, heritage_results_page. stays.
Qed.

Hint Resolve stays_up_search_justkampers stays_up_search_heritage : stays_up.

Lemma stays_up_get_price (item_name : string) : stays_up (get_price drv item_name).
Proof. unfold get_price. stays. Qed.

Hint Resolve stays_up_get_price : stays_up.

Lemma stays_up_process_item (item : row) (rep : report) :
  stays_up (process_item drv str_of_float item rep).
Proof. unfold process_item. stays. Qed.

Hint Resolve stays_up_process_item : stays_up.

Lemma stays_up_process_items (items : list row) :
  forall rep, stays_up (process_items drv str_of_float items rep).
Proof.
  induction items as [|item rest IH]; intro rep; cbn [process_items]; stays.
Qed.

End DriverStaysUp.

Section DriverNotRelaunched.

Context {W E : Type}.
Variable drv : Driver W E.
Variable str_of_float : float -> string.
Variables l c : W -> result unit * W.

Lemma bind_start_driver_up {A} (d : Driver W E) (k : unit -> M W A) (s : scraper W) :
  driver s = true -> bind (start_driver d) k s = k tt s.
Proof. intro H. unfold bind, start_driver. rewrite H. reflexivity. Qed.

Lemma jk_results_page_same_launch (sku : string) (s : scraper W) :
  driver s = true ->
  jk_results_page (with_launch drv l c) sku s = jk_results_page drv sku s.
Proof.
  intro H. unfold jk_results_page. rewrite !(bind_start_driver_up _ _ _ H). reflexivity.
Qed.

Lemma heritage_results_page_same_launch (sku : string) (s : scraper W) :
  driver s = true ->
  heritage_results_page (with_launch drv l c) sku s = heritage_results_page drv sku s.
Proof.
  intro H. unfold heritage_results_page. rewrite !(bind_start_driver_up _ _ _ H). reflexivity.
Qed.

Lemma get_price_same_launch (item_name : string) (s : scraper W) :
  driver s = true ->
  get_price (with_launch drv l c) item_name s = get_price drv item_name s.
Proof.
  intro H. unfold get_price.
  destruct (extract_sku_from_name item_name) as [description sku].
  destruct (negb (nonempty sku)); [reflexivity|].
  destruct (determine_website sku =? "justkampers")%string.
  - unfold bind, search_justkampers, try_except, search_justkampers_body, bind.
    rewrite (jk_results_page_same_launch _ _ H). reflexivity.
  - unfold bind, search_heritage, try_except, search_heritage_body, bind.
    rewrite (heritage_results_page_same_launch _ _ H). reflexivity.
Qed.

Lemma process_item_same_launch (item : row) (rep : report) (s : scraper W) :
  driver s = true ->
  process_item (with_launch drv l c) str_of_float item rep s
  = process_item drv str_of_float item rep s.
Proof.
  intro H. unfold process_item, bind, lift.
  destruct (current_price_of item) as [p|e]; [|reflexivity].
  rewrite (get_price_same_launch _ _ H). reflexivity.
Qed.

Lemma process_items_same_launch (items : list row) :
  forall (rep : report) (s : scraper W),
    driver s = true ->
    process_items (with_launch drv l c) str_of_float items rep s
    = process_items drv str_of_float items rep s.
Proof.
  induction items as [|item rest IH]; intros rep s H; [reflexivity|].
  cbn [process_items]. unfold bind at 1 3.
  rewrite (process_item_same_launch item rep s H).
  destruct (process_item drv str_of_float item rep s) as [[[item' rep']|e] s1] eqn:Hitem;
    [|reflexivity].
  unfold bind. rewrite (IH rep' s1 (stays_up_process_item drv str_of_float _ _ _ _ _ Hitem H)).
  reflexivity.
Qed.

End DriverNotRelaunched.

(** X9.  Once the driver is up, a lookup, and a whole run of the loop,
    goes the same way however Chrome would be launched: it is not launched
    again.  They go the same way however the driver would quit: lookups
    never quit it.  And they leave the driver up. *)
Theorem driver_is_kept_during_lookups :
  forall (W E : Type) (drv : Driver W E) (str_of_float : float -> string)
         (l c q : W -> result unit * W) (s : scraper W),
    (driver s = true ->
     (forall item_name,
         get_price (with_launch drv l c) item_name s = get_price drv item_name s)
     /\ (forall items rep,
            process_items (with_launch drv l c) str_of_float items rep s
            = process_items drv str_of_float items rep s))
    /\ (forall item_name,
           get_price (with_quit drv q) item_name s = get_price drv item_name s)
    /\ (forall items rep,
           process_items (with_quit drv q) str_of_float items rep s
           = process_items drv str_of_float items rep s)
    /\ (driver s = true ->
        (forall item_name r s', get_price drv item_name s = (r, s') -> driver s' = true)
        /\ (forall items rep r s',
               process_items drv str_of_float items rep s = (r, s') -> driver s' = true)).
Proof.
  intros W E drv str_of_float l c q s.
  split; [|split; [|split]].
  - intro H. split.
    + intro item_name. exact (get_price_same_launch drv l c item_name s H).
    + intros items rep. exact (process_items_same_launch drv str_of_float l c items rep s H).
  - intro item_name. reflexivity.
  - intros items rep. reflexivity.
  - intro H. split.
    + intros item_name r s' Hrun. exact (stays_up_get_price drv item_name _ _ _ Hrun H).
    + intros items rep r s' Hrun.
      exact (stays_up_process_items drv str_of_float items rep _ _ _ Hrun H).
Qed.

Lemma driver_is_kept_during_lookups_witness :
  get_price (with_launch Demo.browser (launch Demo.browser)
               (fun w => (Raise (OtherException "WebDriverException"), w)))
    "Rear Light Lens A1002" (Cases.looking_at [])
  = get_price Demo.browser "Rear Light Lens A1002" (Cases.looking_at []).
Proof.
  apply (proj1 (driver_is_kept_during_lookups _ _ Demo.browser Demo.str_of_float
                  (launch Demo.browser)
                  (fun w => (Raise (OtherException "WebDriverException"), w))
                  (quit Demo.browser) (Cases.looking_at []))).
  reflexivity.
Defined.

(** ** The callers: [test_sku] and the web application's loop *)

Lemma of_string_raises_ValueError (s : string) (e : exn) :
  of_string s = Raise e -> e = ValueError.
Proof.
  unfold of_string. intro H.
  repeat (break_match_in H; try discriminate H); inversion H; reflexivity.
Qed.

Lemma of_string_blank (s : string) : strip s = "" -> of_string s = Raise ValueError.
Proof. intro H. unfold of_string. rewrite H. reflexivity. Qed.

Lemma of_string_strip (s : string) : of_string (strip s) = of_string s.
Proof. unfold of_string. rewrite strip_idempotent. reflexivity. Qed.

Lemma web_current_price_eq (item : row) :
  web_current_price item =
  Ok (match current_price_of item with
      | Ok current_price => current_price
      | Raise _ => zero
      end).
Proof.
  unfold web_current_price, current_price_of.
  destruct (dict_get item "SalesUnitPrice") as [v|]; [|reflexivity].
  destruct (strip v) as [|c rest] eqn:Hstrip.
  - cbn [nonempty]. rewrite (of_string_blank v Hstrip). reflexivity.
  - cbn [nonempty]. rewrite <- Hstrip, of_string_strip.
    destruct (of_string v) as [p|e] eqn:Hv; [reflexivity|].
    rewrite (of_string_raises_ValueError v e Hv). reflexivity.
Qed.


Section CallersProperties.

Context {W E : Type}.
Variable drv : Driver W E.
Variable str_of_float : float -> string.

Lemma web_lookup_is_error (item_name : string) (s : scraper W) :
  exists price source s',
    get_price drv item_name s = (Ok (price, source), s')
    /\ web_lookup drv item_name s = (Ok (VNone, VStr "error", VNone), s').
Proof.
  destruct (get_price_returns drv item_name s) as (price & source & s' & H).
  exists price, source, s'. split; [exact H|].
  unfold web_lookup, try_except, bind. rewrite H. reflexivity.
Qed.

Lemma test_sku_unfold (sku : string) (w : W) :
  exists price s1,
    (if startswith sku "J" then search_justkampers drv sku else search_heritage drv sku)
      (Build_scraper false w) = (Ok price, s1)
    /\ test_sku drv sku w =
       match close_driver drv s1 with
       | (Ok _, s2) => (Ok price, world s2)
       | (Raise e, s2) => (Raise e, world s2)
       end.
Proof.
  assert (Hadapter : exists price s1,
             (if startswith sku "J" then search_justkampers drv sku
              else search_heritage drv sku) (Build_scraper false w) = (Ok price, s1)).
  { destruct (startswith sku "J");
      [apply search_justkampers_returns|apply search_heritage_returns]. }
  destruct Hadapter as (price & s1 & H). exists price, s1. split; [exact H|].
  unfold test_sku, try_finally, try_except, bind. rewrite H. cbn [ret].
  destruct (close_driver drv s1) as [[u|e] s2]; reflexivity.
Qed.

End CallersProperties.

(** X11.  [test_sku] picks its adapter by the rule of [determine_website]
    and returns what that adapter returns once the driver is closed; the
    only error it can end with is one raised by quitting the driver, so the
    [return price] at its end never meets an unbound [price]. *)
Theorem test_sku_returns_the_adapter_price :
  forall (W E : Type) (drv : Driver W E) (sku : string) (w : W),
    (startswith sku "J" = true <-> determine_website sku = "justkampers")
    /\ exists price s1,
        (if startswith sku "J" then search_justkampers drv sku else search_heritage drv sku)
          (Build_scraper false w) = (Ok price, s1)
        /\ test_sku drv sku w =
           match close_driver drv s1 with
           | (Ok _, s2) => (Ok price, world s2)
           | (Raise e, s2) => (Raise e, world s2)
           end.
Proof.
  intros W E drv sku w. split; [|apply test_sku_unfold].
  unfold determine_website. destruct (startswith sku "J"); split; intro H;
    try reflexivity; discriminate H.
Qed.

(** X12.  In the web application's loop the lookup is made, but its answer,
    a pair, cannot be unpacked into the three names the loop expects: the
    error is caught, the price counts as absent, and every row, whatever the
    catalogs answer, is left as it is and filed as ["Price not found"]. *)
Theorem web_lookup_always_fails :
  forall (W E : Type) (drv : Driver W E) (str_of_float : float -> string)
         (item : row) (s : scraper W),
  exists price source s',
    get_price drv (item_name_of item) s = (Ok (price, source), s')
    /\ web_lookup drv (item_name_of item) s = (Ok (VNone, VStr "error", VNone), s')
    /\ web_process_item drv str_of_float item s =
       (Ok (item,
            WebError {| we_item_code := item_code_of item;
                        we_item_name := item_name_of item;
                        we_current_price :=
                          match current_price_of item with
                          | Ok current_price => current_price
                          | Raise _ => zero
                          end;
                        we_error := "Price not found" |}),
        s').
Proof.
  intros W E drv str_of_float item s.
  destruct (web_lookup_is_error drv (item_name_of item) s) as (price & source & s' & Hget & Hweb).
  exists price, source, s'. split; [exact Hget|]. split; [exact Hweb|].
  unfold web_process_item, bind, lift. rewrite web_current_price_eq, Hweb. reflexivity.
Qed.

(** ** Heritage entries without a SKU label *)

(** X13.  A Heritage entry that shows no SKU label is taken for the
    searched product as soon as its title contains the searched SKU as a
    substring; when the title does not, and the searched SKU is not empty
    once normalised, the entry is passed over. *)
Theorem heritage_title_decides :
  forall (W E : Type) (drv : Driver W E) (product title_element : E)
         (search_sku title : string) (s s1 s2 s3 : scraper W),
    heritage_sku_text drv product heritage_sku_selectors "" s = (Ok "", s1) ->
    call (find_element drv (Some product) CSS_SELECTOR
            "a.product-item-link, h2.product-name") s1 = (Ok title_element, s2) ->
    call (text drv title_element) s2 = (Ok title, s3) ->
    (contains search_sku title = true ->
     heritage_check_product drv search_sku (heritage_normalize search_sku) product s
     = heritage_extract_price drv product s3)
    /\ (contains search_sku title = false ->
        heritage_normalize search_sku <> "" ->
        heritage_check_product drv search_sku (heritage_normalize search_sku) product s
        = (Ok None, s3)).
Proof.
  intros W E drv product title_element search_sku title s s1 s2 s3 Hlabel Hfind Htext.
  unfold heritage_check_product, heritage_product_sku. unfold bind at 1 3. unfold bind at 1 2.
  rewrite Hlabel. unfold heritage_title_fallback. cbn [nonempty].
  unfold try_except, bind. rewrite Hfind, Htext.
  split.
  - intro Hin. rewrite Hin. cbn [ret]. unfold heritage_sku_matches.
    rewrite String.eqb_refl. reflexivity.
  - intros Hout Hnorm. rewrite Hout. cbn [ret]. unfold heritage_sku_matches.
    destruct (String.eqb_spec (heritage_normalize "") (heritage_normalize search_sku)) as [Heq|_];
      [|reflexivity].
    exfalso. apply Hnorm. rewrite <- Heq. reflexivity.
Qed.

Lemma heritage_title_decides_witness :
  fst (heritage_check_product Demo.browser "A10" (heritage_normalize "A10") Cases.titled
         (Cases.looking_at []))
  = Ok (Some (of_int 15)).
Proof.
  rewrite (proj1 (heritage_title_decides _ _ Demo.browser Cases.titled
                    (Demo.shows "Rear Light Lens A1002 genuine") "A10"
                    "Rear Light Lens A1002 genuine"
                    (Cases.looking_at []) (Cases.looking_at []) (Cases.looking_at [])
                    (Cases.looking_at []) eq_refl eq_refl eq_refl) eq_refl).
  reflexivity.
Defined.

(** ** A matching product without a price *)

Section MatchedWithoutPrice.

Context {W E : Type}.
Variable drv : Driver W E.

Lemma jk_matched_returns (norm : string) (product : E) (rest : list E)
      (s s1 s2 : scraper W) (sku : string) (r : option float) :
  jk_displayed_sku drv product s = (Ok sku, s1) ->
  jk_sku_matches sku norm = true ->
  jk_extract_price drv product s1 = (Ok r, s2) ->
  jk_products drv norm (product :: rest) s = (Ok r, s2).
Proof.
  intros Hread Hyes Hprice.
  exact (jk_first_match_decides drv norm [] rest product s s s1 s2 sku r
           (none_match_nil _ _ s) Hread Hyes Hprice).
Qed.

Lemma jk_matched_raising_is_skipped (norm : string) (product : E) (rest : list E)
      (s s1 s2 : scraper W) (sku : string) (e : exn) :
  jk_displayed_sku drv product s = (Ok sku, s1) ->
  jk_sku_matches sku norm = true ->
  jk_extract_price drv product s1 = (Raise e, s2) ->
  jk_products drv norm (product :: rest) s = jk_products drv norm rest s2.
Proof.
  intros Hread Hyes Hprice. cbn [jk_products]. unfold bind at 1.
  unfold try_except, jk_check_product. unfold bind at 1. rewrite Hread, Hyes.
  unfold bind at 1. rewrite Hprice. reflexivity.
Qed.

Lemma heritage_matched_without_price_is_skipped (search_sku norm : string) (product : E)
      (rest : list E) (s s1 s2 : scraper W) (sku : string) :
  heritage_product_sku drv product search_sku s = (Ok sku, s1) ->
  heritage_sku_matches sku norm = true ->
  (heritage_extract_price drv product s1 = (Ok None, s2)
   \/ exists e, heritage_extract_price drv product s1 = (Raise e, s2)) ->
  heritage_products drv search_sku norm (product :: rest) s
  = heritage_products drv search_sku norm rest s2.
Proof.
  intros Hread Hyes Hprice. cbn [heritage_products]. unfold bind at 1.
  unfold try_except, heritage_check_product. unfold bind at 1. rewrite Hread, Hyes.
  destruct Hprice as [Hprice|[e Hprice]]; rewrite Hprice; reflexivity.
Qed.

End MatchedWithoutPrice.

(** X14.  When the product that matches yields no price, JustKampers ends
    the search with an absent price and looks at no further product, while
    Heritage goes on with the next product; a matching product whose price
    extraction raises is skipped by both. *)
Theorem matched_product_without_price :
  forall (W E : Type) (drv : Driver W E) (product : E) (rest : list E)
         (s s1 s2 : scraper W) (sku : string),
    (forall norm,
        jk_displayed_sku drv product s = (Ok sku, s1) ->
        jk_sku_matches sku norm = true ->
        (jk_extract_price drv product s1 = (Ok None, s2) ->
         jk_products drv norm (product :: rest) s = (Ok None, s2))
        /\ (forall e, jk_extract_price drv product s1 = (Raise e, s2) ->
                      jk_products drv norm (product :: rest) s = jk_products drv norm rest s2))
    /\ (forall search_sku norm,
           heritage_product_sku drv product search_sku s = (Ok sku, s1) ->
           heritage_sku_matches sku norm = true ->
           (heritage_extract_price drv product s1 = (Ok None, s2)
            \/ exists e, heritage_extract_price drv product s1 = (Raise e, s2)) ->
           heritage_products drv search_sku norm (product :: rest) s
           = heritage_products drv search_sku norm rest s2).
Proof.
  intros W E drv product rest s s1 s2 sku. split.
  - intros norm Hread Hyes. split.
    + intro Hprice. exact (jk_matched_returns drv norm product rest s s1 s2 sku None
                             Hread Hyes Hprice).
    + intros e Hprice.
      exact (jk_matched_raising_is_skipped drv norm product rest s s1 s2 sku e
               Hread Hyes Hprice).
  - intros search_sku norm Hread Hyes Hprice.
    exact (heritage_matched_without_price_is_skipped drv search_sku norm product rest
             s s1 s2 sku Hread Hyes Hprice).
Qed.

Lemma matched_product_without_price_witness :
  fst (jk_products Demo.browser "J21066" Cases.bare_then_priced_jk (Cases.looking_at []))
  = Ok None
  /\ fst (heritage_products Demo.browser "A1002" "A1002" Cases.bare_then_priced_heritage
            (Cases.looking_at []))
     = Ok (Some (of_int 15)).
Proof.
  split.
  - unfold Cases.bare_then_priced_jk.
    rewrite (proj1 (proj1 (matched_product_without_price _ _ Demo.browser
                             (Demo.Node "" [] [] [("div.amlabel-text", Demo.shows "J21066")] None)
                             [snd (Demo.jk_item "J21066" (Demo.shows "15.00"))]
                             (Cases.looking_at []) (Cases.looking_at []) (Cases.looking_at [])
                             "J21066")
                      "J21066" eq_refl eq_refl) eq_refl).
    reflexivity.
  - unfold Cases.bare_then_priced_heritage.
    rewrite (proj2 (matched_product_without_price _ _ Demo.browser
                      (snd (Demo.heritage_item "A1002" []))
                      [snd (Demo.heritage_item "A1002"
                              [("span.price-wrapper[data-price-including-tax] span.price",
                                Demo.shows "15.00")])]
                      (Cases.looking_at []) (Cases.looking_at []) (Cases.looking_at [])
                      "A1002")
               "A1002" "A1002" eq_refl eq_refl
               (or_intror (ex_intro _ NoSuchElementException eq_refl))).
    reflexivity.
Defined.

(** ** A table without the price column *)

Lemma dict_set_absent (d : row) (k v : string) :
  dict_get d k = None -> dict_set d k v = (d ++ [(k, v)])%list.
Proof.
  induction d as [|[k0 v0] rest IH]; cbn [dict_get dict_set app]; [reflexivity|].
  destruct (k0 =? k)%string; [discriminate|]. intro H. rewrite (IH H). reflexivity.
Qed.

(** X15.  A row that has no [SalesUnitPrice] cell counts as priced at [0.0];
    when the price found for it differs from zero by more than [0.01] the
    row is an update and gains the column, as its last one. *)
Theorem row_without_price_column :
  forall (W E : Type) (drv : Driver W E) (str_of_float : float -> string)
         (item : row) (rep : report) (s s1 : scraper W) (new_price : float) (source : string),
    dict_get item "SalesUnitPrice" = None ->
    get_price drv (item_name_of item) s = (Ok (Some new_price, source), s1) ->
    gt (fabs (sub new_price zero)) lit_0_01 = true ->
    current_price_of item = Ok zero
    /\ exists u,
        upd_OldPrice u = zero /\ upd_NewPrice u = new_price
        /\ process_item drv str_of_float item rep s =
           (Ok ((item ++ [("SalesUnitPrice", str_of_float new_price)])%list, add_update rep u),
            slept drv 1 s1).
Proof.
  intros W E drv str_of_float item rep s s1 new_price source Hcol Hget Hdiff.
  assert (Hcur : current_price_of item = Ok zero).
  { unfold current_price_of. rewrite Hcol. reflexivity. }
  split; [exact Hcur|].
  rewrite (process_item_unfold drv str_of_float item rep s s1 zero (Some new_price) source
             Hcur Hget).
  rewrite Hdiff, (dict_set_absent _ _ _ Hcol).
  eexists. split; [|split; [|reflexivity]]; reflexivity.
Qed.

Lemma row_without_price_column_witness :
  exists u s',
    process_item Demo.browser Demo.str_of_float Cases.priceless
      {| updates := []; errors := []; unchanged := [] |} (Demo.on Demo.shop)
    = (Ok ((Cases.priceless ++ [("SalesUnitPrice", "15.0")])%list,
           add_update {| updates := []; errors := []; unchanged := [] |} u),
       s').
Proof.
  destruct (proj2 (row_without_price_column _ _ Demo.browser Demo.str_of_float
                     Cases.priceless {| updates := []; errors := []; unchanged := [] |}
                     (Demo.on Demo.shop)
                     (snd (get_price Demo.browser "Rear Light Lens A1002" (Demo.on Demo.shop)))
                     (of_int 15) "Heritage Parts Centre" eq_refl eq_refl eq_refl))
    as (u & _ & _ & H).
  exists u. eexists. exact H.
Defined.
